(** * aws-basic-dynamic-webapp: the request handlers of [src/index.js]

    A shallow embedding of the Express application: the handlers registered
    in [src/index.js], the two Mongoose models of [src/models/], the two
    in-memory fallback arrays and the [useMongoDB] flag.

    - JavaScript strings are sequences of UTF-16 code units.
    - A request body field is a value as the body parsers produce it.
    - The process state (flag, arrays, collections, console) is passed
      explicitly; what the handler reads from outside the program (the clock,
      [Math.random], the outcome of a driver call) is an input of the request.
    - A handler either responds or lets an exception escape.

    The middleware in front of the handlers (request logging, body parsing,
    static files, method override) is not part of the model, except that the
    body parsers decide what a body field can be; the console holds what the
    program itself prints.  Mongoose and the server are described by what
    the handlers use of them: a collection is a list of documents, a model
    call returns or throws. *)

From Stdlib Require Import List ZArith NArith Bool String Ascii Lia QArith.
From Stdlib Require Import Permutation Sorted DecimalN.
Import ListNotations.

Set Implicit Arguments.
Set Warnings "-register-all".
Local Open Scope Z_scope.

(* ================================================================== *)
(** ** JavaScript strings *)

Module JsString.

(** One UTF-16 code unit. *)
Definition codeunit := N.
Definition jsstring := list codeunit.

(** A source literal (ASCII only) as code units. *)
Fixpoint lit (s : string) : jsstring :=
  match s with
  | EmptyString => []
  | String c r => N_of_ascii c :: lit r
  end.

Definition eqb (a b : jsstring) : bool :=
  if list_eq_dec N.eq_dec a b then true else false.

(** ECMAScript WhiteSpace and LineTerminator code points, the set that
    [String.prototype.trim] strips. *)
Definition is_ws (c : codeunit) : bool :=
  match c with
  | 9%N | 10%N | 11%N | 12%N | 13%N | 32%N | 160%N
  | 5760%N
  | 8192%N | 8193%N | 8194%N | 8195%N | 8196%N | 8197%N
  | 8198%N | 8199%N | 8200%N | 8201%N | 8202%N
  | 8232%N | 8233%N | 8239%N | 8287%N | 12288%N | 65279%N => true
  | _ => false
  end.

Fixpoint trimStart (s : jsstring) : jsstring :=
  match s with
  | [] => []
  | c :: r => if is_ws c then trimStart r else s
  end.

Definition trimEnd (s : jsstring) : jsstring := rev (trimStart (rev s)).

(** [s.trim()] *)
Definition trim (s : jsstring) : jsstring := trimEnd (trimStart s).

(** [s || d] on strings: the empty string is falsy. *)
Definition orElse (s d : jsstring) : jsstring :=
  match s with [] => d | _ => s end.

(** Whitespace-only (the empty string included), said without [trim]. *)
Definition all_ws (s : jsstring) : bool := forallb is_ws s.

(** [arr.join(sep)] on strings already converted. *)
Fixpoint join (sep : jsstring) (l : list jsstring) : jsstring :=
  match l with
  | [] => []
  | [x] => x
  | x :: r => x ++ sep ++ join sep r
  end.

(** Decimal digits of a non-negative integer. *)
Fixpoint digits (d : Decimal.uint) : jsstring :=
  match d with
  | Decimal.Nil => []
  | Decimal.D0 r => 48%N :: digits r
  | Decimal.D1 r => 49%N :: digits r
  | Decimal.D2 r => 50%N :: digits r
  | Decimal.D3 r => 51%N :: digits r
  | Decimal.D4 r => 52%N :: digits r
  | Decimal.D5 r => 53%N :: digits r
  | Decimal.D6 r => 54%N :: digits r
  | Decimal.D7 r => 55%N :: digits r
  | Decimal.D8 r => 56%N :: digits r
  | Decimal.D9 r => 57%N :: digits r
  end.

Definition ofN (n : N) : jsstring := digits (N.to_uint n).

(** [String(z)] for an integer of ordinary size (no exponent form). *)
Definition ofZ (z : Z) : jsstring :=
  if z <? 0 then 45%N :: ofN (Z.to_N (- z)) else ofN (Z.to_N z).

(** A non-negative integer on at least [n] digits ([padStart(n, "0")]). *)
Definition pad (n : nat) (v : Z) : jsstring :=
  let d := ofN (Z.to_N v) in
  repeat 48%N (n - List.length d) ++ d.

End JsString.
Import JsString.

(* ================================================================== *)
(** ** Dates

    A [Date] is its time value, the milliseconds since the epoch.
    [toISOString] is the runtime's [Date.prototype.toISOString]
    (ECMAScript, Date Time String Format) on a valid time value. *)

Module JsDate.

Definition msPerDay : Z := 86400000.

(** Year, month and day of the month of a day number (days since the epoch)
    in the proleptic Gregorian calendar. *)
Definition civil (days : Z) : Z * Z * Z :=
  let z := days + 719468 in
  let era := z / 146097 in
  let doe := z - era * 146097 in
  let yoe := (doe - doe / 1460 + doe / 36524 - doe / 146096) / 365 in
  let doy := doe - (365 * yoe + yoe / 4 - yoe / 100) in
  let mp := (5 * doy + 2) / 153 in
  let d := doy - (153 * mp + 2) / 5 + 1 in
  let m := if mp <? 10 then mp + 3 else mp - 9 in
  let y := yoe + era * 400 + (if m <=? 2 then 1 else 0) in
  (y, m, d).

(** Four digits for the years 0 to 9999, a sign and six digits otherwise. *)
Definition isoYear (y : Z) : jsstring :=
  if (0 <=? y) && (y <=? 9999) then pad 4 y
  else (if y <? 0 then 45%N else 43%N) :: pad 6 (Z.abs y).

Definition toISOString (t : Z) : jsstring :=
  let '(y, m, d) := civil (t / msPerDay) in
  let ms := t mod msPerDay in
  isoYear y ++ lit "-" ++ pad 2 m ++ lit "-" ++ pad 2 d ++ lit "T"
    ++ pad 2 (ms / 3600000) ++ lit ":" ++ pad 2 (ms / 60000 mod 60) ++ lit ":"
    ++ pad 2 (ms / 1000 mod 60) ++ lit "." ++ pad 3 (ms mod 1000) ++ lit "Z".

End JsDate.

(* ================================================================== *)
(** ** Request values

    What [express.urlencoded({ extended: true })] and [express.json()] put
    in [req.body] and what the query parser puts in [req.query]: strings,
    arrays and plain objects from a form, and any JSON value from a JSON body.
    A number is given by what the handlers observe of it: whether it is
    truthy (neither zero nor NaN) and its rendering by
    [Number.prototype.toString]. *)

Inductive jsval :=
| JUndefined
| JNull
| JBool (b : bool)
| JNum (truthy : bool) (text : jsstring)
| JStr (s : jsstring)
| JArr (l : list jsval)
| JObj (fields : list (jsstring * jsval)).

(** ToBoolean. *)
Definition truthy (v : jsval) : bool :=
  match v with
  | JUndefined | JNull => false
  | JBool b => b
  | JNum t _ => t
  | JStr s => match s with [] => false | _ => true end
  | JArr _ | JObj _ => true
  end.

(** [v || "d"] with a string literal on the right. *)
Definition orLit (v : jsval) (d : jsstring) : jsval :=
  if truthy v then v else JStr d.

Definition hasOwn (k : jsstring) (fields : list (jsstring * jsval)) : bool :=
  existsb (fun kv => eqb (fst kv) k) fields.

(** [v.toString()]; [None] is a thrown TypeError.  On [undefined] and [null]
    the property access throws.  An array joins its elements with a comma,
    [undefined] and [null] elements giving the empty string.  A parsed object
    inherits [Object.prototype.toString] unless it has an own [toString]
    property, which parsed data can only hold as a non-callable value. *)
Fixpoint toString (v : jsval) : option jsstring :=
  match v with
  | JUndefined | JNull => None
  | JBool b => Some (lit (if b then "true" else "false"))
  | JNum _ t => Some t
  | JStr s => Some s
  | JArr l =>
      let fix elements (l : list jsval) : option (list jsstring) :=
        match l with
        | [] => Some []
        | x :: r =>
            match (match x with
                   | JUndefined | JNull => Some []
                   | _ => toString x
                   end), elements r with
            | Some a, Some b => Some (a :: b)
            | _, _ => None
            end
        end in
      option_map (join (lit ",")) (elements l)
  | JObj fields =>
      if hasOwn (lit "toString") fields then None
      else Some (lit "[object Object]")
  end.

(** A parsed body or query object; a missing property reads [undefined]. *)
Definition jsobject := list (string * jsval).

Fixpoint field (o : jsobject) (k : string) : jsval :=
  match o with
  | [] => JUndefined
  | (k', v) :: r => if String.eqb k' k then v else field r k
  end.

(* ================================================================== *)
(** ** Exceptions and the outside world *)

Inductive exn :=
| TypeError
| ValidationError
| DriverError (message : jsstring).

(** The result of an awaited call: a value, or a rejection. *)
Inductive attempt (A : Type) :=
| Ok (a : A)
| Throw (e : exn).
Arguments Ok {A} a.
Arguments Throw {A} e.

(** What one model call gets from the driver and the server: whether the
    call fails there (server unreachable, buffering timed out, the id not
    castable to an ObjectId, ...), the ObjectId generated for an inserted
    document, and the date put in the timestamps. *)
Record driver := {
  fault : option jsstring;
  objectId : jsstring;
  now : Z
}.

(** What one request reads from outside the program. *)
Record env := {
  dateNow : Z;               (* Date.now() *)
  randomSuffix : jsstring;   (* Math.random().toString(36).slice(2, 8) *)
  newDate : Z;               (* the first  new Date() of the handler *)
  newDate' : Z;              (* the second new Date() of the handler *)
  uptime : Q;                (* process.uptime() *)
  mongo : driver
}.

(** Descending sort on a date, as [.sort({ key: -1 })]. *)
Fixpoint insertDesc {A : Type} (key : A -> Z) (x : A) (l : list A) : list A :=
  match l with
  | [] => [x]
  | y :: r => if key y <? key x then x :: l else y :: insertDesc key x r
  end.

Definition sortDesc {A : Type} (key : A -> Z) (l : list A) : list A :=
  fold_right (insertDesc key) [] l.

(* ================================================================== *)
(** ** The Mongoose models ([src/models/Item.js], [src/models/Feedback.js])

    The two files declare the schemas; the calls are Mongoose's, described
    here by their documented behaviour.  A collection is the list of its
    documents in insertion order.  The schema options are applied as
    Mongoose applies them: [default] fills a field left [undefined] when a
    document is made, [trim] is a setter that runs on [create] and on the
    keys of an update, [required] is checked when a document is saved (an
    empty string does not pass), [timestamps] maintains [createdAt] and
    [updatedAt].  The server refuses a second document with the [_id] of
    another. *)

Module Item.

Record doc := {
  _id : jsstring;
  title : jsstring;
  content : jsstring;
  createdAt : Z;
  updatedAt : Z
}.

Definition hasId (id : jsstring) (d : doc) : bool := eqb (_id d) id.

(** [Item.create({ title, content })] *)
Definition create (m : driver) (coll : list doc) (title : jsstring)
  (content : option jsstring) : attempt (doc * list doc) :=
  let t := trim title in
  match t with
  | [] => Throw ValidationError
  | _ =>
    match fault m with
    | Some msg => Throw (DriverError msg)
    | None =>
      if existsb (hasId (objectId m)) coll
      then Throw (DriverError (lit "E11000 duplicate key error"))
      else
        let d := {| _id := objectId m; title := t;
                    content := match content with Some c => c | None => [] end;
                    createdAt := now m; updatedAt := now m |} in
        Ok (d, coll ++ [d])
    end
  end.

(** [Item.find({}).sort({ updatedAt: -1 }).lean()] *)
Definition find (m : driver) (coll : list doc) : attempt (list doc) :=
  match fault m with
  | Some msg => Throw (DriverError msg)
  | None => Ok (sortDesc updatedAt coll)
  end.

(** [Item.findById(id).lean()] *)
Definition findById (m : driver) (coll : list doc) (id : jsstring)
  : attempt (option doc) :=
  match fault m with
  | Some msg => Throw (DriverError msg)
  | None => Ok (List.find (hasId id) coll)
  end.

(** The update [{ $set: { title, content } }] on one document.  A key whose
    value is [undefined] is removed from the update before it is sent, so
    the stored field keeps its value; [updatedAt] is set by [timestamps]. *)
Definition set (m : driver) (title : option jsstring) (content : jsstring)
  (d : doc) : doc :=
  {| _id := _id d;
     title := match title with Some t => trim t | None => Item.title d end;
     content := content;
     createdAt := createdAt d;
     updatedAt := now m |}.

Fixpoint updateOne (id : jsstring) (f : doc -> doc) (coll : list doc)
  : option doc * list doc :=
  match coll with
  | [] => (None, [])
  | d :: r =>
      if hasId id d then (Some (f d), f d :: r)
      else let (o, r') := updateOne id f r in (o, d :: r')
  end.

(** [Item.findByIdAndUpdate(id, { $set: { title, content } }, { new: true }).lean()] *)
Definition findByIdAndUpdate (m : driver) (coll : list doc) (id : jsstring)
  (title : option jsstring) (content : jsstring)
  : attempt (option doc * list doc) :=
  match fault m with
  | Some msg => Throw (DriverError msg)
  | None => Ok (updateOne id (set m title content) coll)
  end.

Fixpoint deleteOne (id : jsstring) (coll : list doc) : option doc * list doc :=
  match coll with
  | [] => (None, [])
  | d :: r =>
      if hasId id d then (Some d, r)
      else let (o, r') := deleteOne id r in (o, d :: r')
  end.

(** [Item.findByIdAndDelete(id).lean()] *)
Definition findByIdAndDelete (m : driver) (coll : list doc) (id : jsstring)
  : attempt (option doc * list doc) :=
  match fault m with
  | Some msg => Throw (DriverError msg)
  | None => Ok (deleteOne id coll)
  end.

End Item.

Module FeedbackModel.

Record doc := {
  _id : jsstring;
  name : jsstring;
  message : jsstring;
  createdAt : Z;
  updatedAt : Z
}.

Definition hasId (id : jsstring) (d : doc) : bool := eqb (_id d) id.

(** [FeedbackModel.create({ name, message })] *)
Definition create (m : driver) (coll : list doc) (name : option jsstring)
  (message : jsstring) : attempt (doc * list doc) :=
  let msg := trim message in
  match msg with
  | [] => Throw ValidationError
  | _ =>
    match fault m with
    | Some err => Throw (DriverError err)
    | None =>
      if existsb (hasId (objectId m)) coll
      then Throw (DriverError (lit "E11000 duplicate key error"))
      else
        let d := {| _id := objectId m;
                    name := match name with
                            | Some n => trim n
                            | None => lit "Anonymous"
                            end;
                    message := msg;
                    createdAt := now m; updatedAt := now m |} in
        Ok (d, coll ++ [d])
    end
  end.

(** [FeedbackModel.find({}).sort({ createdAt: -1 }).lean()] *)
Definition find (m : driver) (coll : list doc) : attempt (list doc) :=
  match fault m with
  | Some msg => Throw (DriverError msg)
  | None => Ok (sortDesc createdAt coll)
  end.

End FeedbackModel.

(* ================================================================== *)
(** ** Process state *)

(** An element of [memoryItems]:
    [{ id, ...itemData, createdAtIso, updatedAtIso }]. *)
Module MemoryItem.

Record t := {
  id : jsstring;
  title : jsstring;
  content : jsstring;
  createdAtIso : jsstring;
  updatedAtIso : jsstring
}.

End MemoryItem.

Inductive logline :=
| Warn (text : string)
| Log (text : string)
| Error (label : string) (e : exn).

Record state := {
  NODE_ENV : jsval;                       (* process.env.NODE_ENV *)
  useMongoDB : bool;
  memoryItems : list MemoryItem.t;
  memoryFeedback : list jsval;
  items : list Item.doc;                  (* the collection behind Item *)
  feedbacks : list FeedbackModel.doc;     (* the collection behind FeedbackModel *)
  console : list logline
}.

Definition set_useMongoDB (b : bool) (st : state) : state :=
  {| NODE_ENV := NODE_ENV st; useMongoDB := b;
     memoryItems := memoryItems st; memoryFeedback := memoryFeedback st;
     items := items st; feedbacks := feedbacks st; console := console st |}.

Definition set_memoryItems (l : list MemoryItem.t) (st : state) : state :=
  {| NODE_ENV := NODE_ENV st; useMongoDB := useMongoDB st;
     memoryItems := l; memoryFeedback := memoryFeedback st;
     items := items st; feedbacks := feedbacks st; console := console st |}.

Definition set_items (l : list Item.doc) (st : state) : state :=
  {| NODE_ENV := NODE_ENV st; useMongoDB := useMongoDB st;
     memoryItems := memoryItems st; memoryFeedback := memoryFeedback st;
     items := l; feedbacks := feedbacks st; console := console st |}.

Definition set_feedbacks (l : list FeedbackModel.doc) (st : state) : state :=
  {| NODE_ENV := NODE_ENV st; useMongoDB := useMongoDB st;
     memoryItems := memoryItems st; memoryFeedback := memoryFeedback st;
     items := items st; feedbacks := l; console := console st |}.

(** [console.error(label, err.message)] and the like. *)
Definition print (l : logline) (st : state) : state :=
  {| NODE_ENV := NODE_ENV st; useMongoDB := useMongoDB st;
     memoryItems := memoryItems st; memoryFeedback := memoryFeedback st;
     items := items st; feedbacks := feedbacks st; console := console st ++ [l] |}.

(* ================================================================== *)
(** ** Responses *)

(** The [item] local of the item views: the views get either a memory item
    or an object built from a document, which has some of the fields. *)
Module ItemView.

Record t := {
  id : jsstring;
  title : jsstring;
  content : option jsstring;
  createdAtIso : option jsstring;
  updatedAtIso : option jsstring
}.

End ItemView.

Definition viewOfMemory (i : MemoryItem.t) : ItemView.t :=
  {| ItemView.id := MemoryItem.id i;
     ItemView.title := MemoryItem.title i;
     ItemView.content := Some (MemoryItem.content i);
     ItemView.createdAtIso := Some (MemoryItem.createdAtIso i);
     ItemView.updatedAtIso := Some (MemoryItem.updatedAtIso i) |}.

Record feedbackRow := {
  row_name : jsstring;
  row_message : jsstring;
  row_createdAtIso : jsstring
}.

(** A template with the locals it is rendered with, [title] apart. *)
Inductive view :=
| about
| index (name : jsval) (env : jsval)
| user (name : jsstring)
| items_index (items : list ItemView.t)
| items_new
| items_show (item : ItemView.t)
| items_edit (item : ItemView.t)
| feedback (items : list feedbackRow)
| not_found (url : jsstring).

(** The template file under [views/]. *)
Definition template (v : view) : string :=
  match v with
  | about => "about"
  | index _ _ => "index"
  | user _ => "user"
  | items_index _ => "items/index"
  | items_new => "items/new"
  | items_show _ => "items/show"
  | items_edit _ => "items/edit"
  | feedback _ => "feedback"
  | not_found _ => "404"
  end.

Inductive response :=
| Render (status : Z) (title : jsstring) (v : view)   (* res.status(s).render(v, { title, ... }) *)
| Redirect (location : jsstring)                       (* res.redirect(location), status 302 *)
| Send (status : Z) (body : jsstring)                  (* res.status(s).send(body) *)
| Json (nowIso : jsstring) (uptimeSeconds : Q)         (* res.json({ nowIso, uptimeSeconds }) *)
| End (status : Z).                                    (* res.status(s).end() *)

Definition status (r : response) : Z :=
  match r with
  | Render s _ _ => s
  | Redirect _ => 302
  | Send s _ => s
  | Json _ _ => 200
  | End s => s
  end.

(** A handler sends a response, or an exception escapes it. *)
Inductive outcome :=
| Responded (r : response)
| Escaped (e : exn).

(** The 404 page, as every handler renders it. *)
Definition render404 (originalUrl : jsstring) : response :=
  Render 404 (lit "Not Found") (not_found originalUrl).

(* ================================================================== *)
(** ** The handlers of [src/index.js]

    A request is named by the handler Express dispatches it to (the first
    registered route that matches), with what that handler reads of it. *)

Inductive request :=
| GET_about
| GET_favicon
| GET_root (query : jsobject)
| GET_user (name : jsstring)
| GET_api_time
| GET_items
| GET_items_new
| POST_items (body : jsobject)
| GET_items_id (id originalUrl : jsstring)
| GET_items_id_edit (id originalUrl : jsstring)
| PUT_items_id (id : jsstring) (body : jsobject) (originalUrl : jsstring)
| DELETE_items_id (id originalUrl : jsstring)
| GET_feedback
| POST_feedback (body : jsobject)
| GET_health
| Unmatched (originalUrl : jsstring).

Definition rowOfDoc (it : Item.doc) : ItemView.t :=
  {| ItemView.id := Item._id it;
     ItemView.title := Item.title it;
     ItemView.content := None;
     ItemView.createdAtIso := None;
     ItemView.updatedAtIso := Some (JsDate.toISOString (Item.updatedAt it)) |}.

Definition viewOfDoc (it : Item.doc) : ItemView.t :=
  {| ItemView.id := Item._id it;
     ItemView.title := Item.title it;
     ItemView.content := Some (Item.content it);
     ItemView.createdAtIso := Some (JsDate.toISOString (Item.createdAt it));
     ItemView.updatedAtIso := Some (JsDate.toISOString (Item.updatedAt it)) |}.

Definition editOfDoc (it : Item.doc) : ItemView.t :=
  {| ItemView.id := Item._id it;
     ItemView.title := Item.title it;
     ItemView.content := Some (Item.content it);
     ItemView.createdAtIso := None;
     ItemView.updatedAtIso := None |}.

(** [app.get("/items", ...)] *)
Definition get_items (e : env) (st : state) : outcome * state :=
  if useMongoDB st then
    match Item.find (mongo e) (items st) with
    | Ok list =>
        (Responded (Render 200 (lit "Items") (items_index (map rowOfDoc list))), st)
    | Throw err =>
        (Responded (Render 200 (lit "Items")
                      (items_index (map viewOfMemory (memoryItems st)))),
         print (Error "MongoDB error:" err) st)
    end
  else
    (Responded (Render 200 (lit "Items")
                  (items_index (map viewOfMemory (memoryItems st)))), st).

(** [(title || "Untitled").toString().trim() || "Untitled"] *)
Definition newTitle (title : jsval) : option jsstring :=
  match toString (orLit title (lit "Untitled")) with
  | Some s => Some (orElse (trim s) (lit "Untitled"))
  | None => None
  end.

(** [(content || "").toString()] *)
Definition contentText (content : jsval) : option jsstring :=
  toString (orLit content (lit "")).

(** [{ id: `${Date.now()}-${Math.random().toString(36).slice(2, 8)}`,
       ...itemData, createdAtIso: ..., updatedAtIso: ... }] *)
Definition newMemoryItem (e : env) (title content : jsstring) : MemoryItem.t :=
  {| MemoryItem.id := ofZ (dateNow e) ++ lit "-" ++ randomSuffix e;
     MemoryItem.title := title;
     MemoryItem.content := content;
     MemoryItem.createdAtIso := JsDate.toISOString (newDate e);
     MemoryItem.updatedAtIso := JsDate.toISOString (newDate' e) |}.

(** [memoryItems.push(item); res.redirect(`/items/${item.id}`)] *)
Definition pushMemoryItem (item : MemoryItem.t) (st : state) : outcome * state :=
  (Responded (Redirect (lit "/items/" ++ MemoryItem.id item)),
   set_memoryItems (memoryItems st ++ [item]) st).

(** [app.post("/items", ...)] *)
Definition post_items (body : jsobject) (e : env) (st : state) : outcome * state :=
  match newTitle (field body "title") with
  | None => (Escaped TypeError, st)
  | Some title =>
    match contentText (field body "content") with
    | None => (Escaped TypeError, st)
    | Some content =>
      if useMongoDB st then
        match Item.create (mongo e) (items st) title (Some content) with
        | Ok (created, coll) =>
            (Responded (Redirect (lit "/items/" ++ Item._id created)),
             set_items coll st)
        | Throw err =>
            pushMemoryItem (newMemoryItem e title content)
              (print (Error "MongoDB error:" err) st)
        end
      else
        pushMemoryItem (newMemoryItem e title content) st
    end
  end.

(** [memoryItems.find(i => i.id === id)] then the 404 page or the item. *)
Definition showMemoryItem (id originalUrl : jsstring) (st : state) : outcome * state :=
  match List.find (fun i => eqb (MemoryItem.id i) id) (memoryItems st) with
  | None => (Responded (render404 originalUrl), st)
  | Some item =>
      (Responded (Render 200 (MemoryItem.title item) (items_show (viewOfMemory item))), st)
  end.

(** [app.get("/items/:id", ...)] *)
Definition get_items_id (id originalUrl : jsstring) (e : env) (st : state)
  : outcome * state :=
  if useMongoDB st then
    match Item.findById (mongo e) (items st) id with
    | Ok None => (Responded (render404 originalUrl), st)
    | Ok (Some it) =>
        (Responded (Render 200 (Item.title it) (items_show (viewOfDoc it))), st)
    | Throw err =>
        showMemoryItem id originalUrl (print (Error "MongoDB error:" err) st)
    end
  else
    showMemoryItem id originalUrl st.

(** [app.get("/items/:id/edit", ...)] *)
Definition get_items_id_edit (id originalUrl : jsstring) (e : env) (st : state)
  : outcome * state :=
  match Item.findById (mongo e) (items st) id with
  | Throw err => (Escaped err, st)
  | Ok None => (Responded (render404 originalUrl), st)
  | Ok (Some it) =>
      (Responded (Render 200 (lit "Edit: " ++ Item.title it) (items_edit (editOfDoc it))),
       st)
  end.

(** [(title || "").toString().trim() || undefined] *)
Definition updatedTitle (title : jsval) : option (option jsstring) :=
  match toString (orLit title (lit "")) with
  | Some s => Some (match trim s with [] => None | t => Some t end)
  | None => None
  end.

(** [app.put("/items/:id", ...)] *)
Definition put_items_id (id : jsstring) (body : jsobject) (originalUrl : jsstring)
  (e : env) (st : state) : outcome * state :=
  match updatedTitle (field body "title") with
  | None => (Escaped TypeError, st)
  | Some title =>
    match contentText (field body "content") with
    | None => (Escaped TypeError, st)
    | Some content =>
      match Item.findByIdAndUpdate (mongo e) (items st) id title content with
      | Throw err => (Escaped err, st)
      | Ok (None, _) => (Responded (render404 originalUrl), st)
      | Ok (Some updated, coll) =>
          (Responded (Redirect (lit "/items/" ++ Item._id updated)), set_items coll st)
      end
    end
  end.

(** [app.delete("/items/:id", ...)] *)
Definition delete_items_id (id originalUrl : jsstring) (e : env) (st : state)
  : outcome * state :=
  match Item.findByIdAndDelete (mongo e) (items st) id with
  | Throw err => (Escaped err, st)
  | Ok (None, _) => (Responded (render404 originalUrl), st)
  | Ok (Some _, coll) => (Responded (Redirect (lit "/items")), set_items coll st)
  end.

Definition rowOfFeedback (f : FeedbackModel.doc) : feedbackRow :=
  {| row_name := orElse (FeedbackModel.name f) (lit "Anonymous");
     row_message := FeedbackModel.message f;
     row_createdAtIso := JsDate.toISOString (FeedbackModel.createdAt f) |}.

(** [app.get("/feedback", ...)] *)
Definition get_feedback (e : env) (st : state) : outcome * state :=
  match FeedbackModel.find (mongo e) (feedbacks st) with
  | Throw err => (Escaped err, st)
  | Ok all =>
      (Responded (Render 200 (lit "Feedback") (feedback (map rowOfFeedback all))), st)
  end.

(** [(message || "").toString().trim()] *)
Definition trimmedMessage (message : jsval) : option jsstring :=
  match toString (orLit message (lit "")) with
  | Some s => Some (trim s)
  | None => None
  end.

(** [(name || "Anonymous").toString().trim() || "Anonymous"] *)
Definition feedbackName (name : jsval) : option jsstring :=
  match toString (orLit name (lit "Anonymous")) with
  | Some s => Some (orElse (trim s) (lit "Anonymous"))
  | None => None
  end.

(** [app.post("/feedback", ...)] *)
Definition post_feedback (body : jsobject) (e : env) (st : state) : outcome * state :=
  match trimmedMessage (field body "message") with
  | None => (Escaped TypeError, st)
  | Some [] => (Responded (Redirect (lit "/feedback")), st)
  | Some message =>
    match feedbackName (field body "name") with
    | None => (Escaped TypeError, st)
    | Some name =>
      match FeedbackModel.create (mongo e) (feedbacks st) (Some name) message with
      | Throw err => (Escaped err, st)
      | Ok (_, coll) =>
          (Responded (Redirect (lit "/feedback")), set_feedbacks coll st)
      end
    end
  end.

(** The application: the handler of each route. *)
Definition handle (r : request) (e : env) (st : state) : outcome * state :=
  match r with
  | GET_about => (Responded (Render 200 (lit "About") about), st)
  | GET_favicon => (Responded (End 204), st)
  | GET_root query =>
      (Responded (Render 200 (lit "Welcome")
                    (index (orLit (field query "name") (lit "Visitor"))
                           (orLit (NODE_ENV st) (lit "development")))), st)
  | GET_user name => (Responded (Render 200 (lit "User Page") (user name)), st)
  | GET_api_time =>
      (Responded (Json (JsDate.toISOString (newDate e)) (uptime e)), st)
  | GET_items => get_items e st
  | GET_items_new => (Responded (Render 200 (lit "New Item") items_new), st)
  | POST_items body => post_items body e st
  | GET_items_id id url => get_items_id id url e st
  | GET_items_id_edit id url => get_items_id_edit id url e st
  | PUT_items_id id body url => put_items_id id body url e st
  | DELETE_items_id id url => delete_items_id id url e st
  | GET_feedback => get_feedback e st
  | POST_feedback body => post_feedback body e st
  | GET_health => (Responded (Send 200 (lit "OK")), st)
  | Unmatched url => (Responded (render404 url), st)
  end.

(** *** The process from its start *)

(** Module level of [src/index.js]: the flag is off and the arrays empty;
    without [MONGODB_URI] a warning is printed and no connection is tried. *)
Definition start (MONGODB_URI NODE_ENV : jsval) : state :=
  {| NODE_ENV := NODE_ENV; useMongoDB := false;
     memoryItems := []; memoryFeedback := [];
     items := []; feedbacks := [];
     console := if truthy MONGODB_URI then []
                else [Warn "MONGODB_URI not set. Using in-memory storage."] |}.

Inductive event :=
| Connected                                (* the [.then] of [mongoose.connect] *)
| ConnectionError (message : jsstring)     (* its [.catch] *)
| Request (r : request) (e : env).

Definition step (st : state) (ev : event) : state :=
  match ev with
  | Connected => set_useMongoDB true (print (Log "Connected to MongoDB") st)
  | ConnectionError msg =>
      print (Log "Falling back to in-memory storage")
        (print (Error "MongoDB connection error:" (DriverError msg)) st)
  | Request r e => snd (handle r e st)
  end.

Definition run (st : state) (evs : list event) : state := fold_left step evs st.

(* ================================================================== *)
(** ** Vocabulary of the properties *)

(** A form field that is absent ([undefined]; a JSON [null] is counted as
    absent), empty, or made of white space only. *)
Definition blank (v : jsval) : bool :=
  match v with
  | JUndefined | JNull => true
  | JStr s => all_ws s
  | _ => false
  end.

(** A text field with at least one character that is not white space. *)
Definition nonblank (v : jsval) : bool :=
  match v with
  | JStr s => negb (all_ws s)
  | _ => false
  end.

(** The store that answers a request to an item route with a fallback: the
    collection when the flag is on and the call succeeds, [memoryItems]
    when the flag is off or the call has thrown. *)
Inductive store := Database | Memory.

Definition activeStore (e : env) (st : state) : store :=
  if useMongoDB st then
    match fault (mongo e) with
    | None => Database
    | Some _ => Memory
    end
  else Memory.

Definition stored (s : store) (st : state) (id : jsstring) : Prop :=
  match s with
  | Database => exists d, In d (items st) /\ Item._id d = id
  | Memory => exists i, In i (memoryItems st) /\ MemoryItem.id i = id
  end.

(** The id a [POST /items] generates for a memory item. *)
Definition generatedId (e : env) : jsstring :=
  ofZ (dateNow e) ++ lit "-" ++ randomSuffix e.

(** Create then fetch, in memory: [POST /items] appends exactly one item,
    whose id is the generated one, and redirects to it; the [GET] of that
    id that follows renders this item. *)
Definition create_then_fetch (body : jsobject) (e : env) (url : jsstring)
  (e' : env) (st : state) : Prop :=
  exists item,
    MemoryItem.id item = generatedId e /\
    handle (POST_items body) e st =
      (Responded (Redirect (lit "/items/" ++ MemoryItem.id item)),
       set_memoryItems (memoryItems st ++ [item]) st) /\
    fst (handle (GET_items_id (MemoryItem.id item) url) e'
           (snd (handle (POST_items body) e st))) =
      Responded (Render 200 (MemoryItem.title item) (items_show (viewOfMemory item))).

(** The routes whose handler calls a model. *)
Definition callsDatabase (r : request) : bool :=
  match r with
  | GET_items | POST_items _ | GET_items_id _ _
  | GET_items_id_edit _ _ | PUT_items_id _ _ _ | DELETE_items_id _ _
  | GET_feedback | POST_feedback _ => true
  | _ => false
  end.

(** The routes whose model call sits in a [try] with a [catch] that serves
    the request from [memoryItems]. *)
Definition hasFallback (r : request) : bool :=
  match r with
  | GET_items | POST_items _ | GET_items_id _ _ => true
  | _ => false
  end.

(* ================================================================== *)
(** ** Vocabulary of the further properties *)

Definition isConnected (ev : event) : bool :=
  match ev with
  | Connected => true
  | _ => false
  end.

(** A text that is not empty and has no white space at either end. *)
Definition trimmedText (t : jsstring) : Prop := t <> [] /\ trim t = t.

(** Every stored item, in the array and in the collection, has such a title. *)
Definition titlesOk (st : state) : Prop :=
  Forall (fun i => trimmedText (MemoryItem.title i)) (memoryItems st) /\
  Forall (fun d => trimmedText (Item.title d)) (items st).

(** Every stored feedback entry has such a name and such a message. *)
Definition feedbacksOk (st : state) : Prop :=
  Forall (fun f => trimmedText (FeedbackModel.name f) /\
                   trimmedText (FeedbackModel.message f)) (feedbacks st).

(** No two documents of a collection share their [_id]. *)
Definition idsDistinct (st : state) : Prop :=
  NoDup (map Item._id (items st)) /\
  NoDup (map FeedbackModel._id (feedbacks st)).

(** The HTTP method a route is registered for ([app.use] takes any). *)
Inductive verb := GET | POST | PUT | DELETE | ANY.

Definition verbOf (r : request) : verb :=
  match r with
  | GET_about | GET_favicon | GET_root _ | GET_user _ | GET_api_time
  | GET_items | GET_items_new | GET_items_id _ _ | GET_items_id_edit _ _
  | GET_feedback | GET_health => GET
  | POST_items _ | POST_feedback _ => POST
  | PUT_items_id _ _ _ => PUT
  | DELETE_items_id _ _ => DELETE
  | Unmatched _ => ANY
  end.

(** What a request can change, the console apart. *)
Definition stores (st : state)
  : bool * list MemoryItem.t * list jsval * list Item.doc * list FeedbackModel.doc :=
  (useMongoDB st, memoryItems st, memoryFeedback st, items st, feedbacks st).

(** A list in descending order of a date. *)
Definition newestFirst {A : Type} (key : A -> Z) (l : list A) : Prop :=
  StronglySorted (fun a b => key b <= key a) l.

(* ================================================================== *)
(** ** Sample inputs *)

Definition driverUp : driver :=
  {| fault := None;
     objectId := lit "65f0c0ffee0123456789abcd";
     now := 1700000000500 |}.

Definition driverDown : driver :=
  {| fault := Some (lit "connect ECONNREFUSED 127.0.0.1:27017");
     objectId := lit "65f0c0ffee0123456789abcd";
     now := 1700000000500 |}.

Definition envUp : env :=
  {| dateNow := 1700000000123; randomSuffix := lit "k3x9qa";
     newDate := 1700000000123; newDate' := 1700000000124;
     uptime := 5 # 2; mongo := driverUp |}.

Definition envDown : env :=
  {| dateNow := 1700000000123; randomSuffix := lit "k3x9qa";
     newDate := 1700000000123; newDate' := 1700000000124;
     uptime := 5 # 2; mongo := driverDown |}.

(** A later request, the server reachable. *)
Definition envLater : env :=
  {| dateNow := 1700000060000; randomSuffix := lit "0b7zzp";
     newDate := 1700000060000; newDate' := 1700000060000;
     uptime := 125 # 2;
     mongo := {| fault := None;
                 objectId := lit "65f0c0ffee0123456789abce";
                 now := 1700000060200 |} |}.

(** The process started without [MONGODB_URI]. *)
Definition memoryMode : state := start JUndefined JUndefined.

(** The process started with a URI, once the connection is made. *)
Definition mongoMode : state :=
  step (start (JStr (lit "mongodb+srv://cluster/db")) (JStr (lit "production")))
       Connected.

(** A text field of a submitted form. *)
Definition text (k v : string) : string * jsval := (k, JStr (lit v)).

(* ================================================================== *)
(** * Properties *)

(** ** Strings *)

Lemma eqb_eq (a b : jsstring) : eqb a b = true <-> a = b.
Proof.
  unfold eqb. destruct (list_eq_dec N.eq_dec a b); split; congruence.
Qed.

Lemma eqb_refl (a : jsstring) : eqb a a = true.
Proof. now apply eqb_eq. Qed.

Lemma eqb_neq (a b : jsstring) : eqb a b = false <-> a <> b.
Proof.
  unfold eqb. destruct (list_eq_dec N.eq_dec a b); split; congruence.
Qed.


Example iso_epoch : JsDate.toISOString 0 = lit "1970-01-01T00:00:00.000Z".
Proof. reflexivity. Qed.

Example iso_2023 : JsDate.toISOString 1700000000000 = lit "2023-11-14T22:13:20.000Z".
Proof. reflexivity. Qed.

Example iso_leap : JsDate.toISOString 951782400000 = lit "2000-02-29T00:00:00.000Z".
Proof. reflexivity. Qed.

Example iso_before_epoch : JsDate.toISOString (-1) = lit "1969-12-31T23:59:59.999Z".
Proof. reflexivity. Qed.

Example iso_year_10000 : JsDate.toISOString 253402300800000 = lit "+010000-01-01T00:00:00.000Z".
Proof. reflexivity. Qed.

Example toString_array :
  toString (JArr [JStr (lit "a"); JNull; JArr [JBool true; JStr (lit "b")]]) = Some (lit "a,,true,b").
Proof. reflexivity. Qed.

Example toString_shadowed :
  toString (JObj [(lit "toString", JStr (lit "x"))]) = None.
Proof. reflexivity. Qed.

Example lit_Untitled : lit "Untitled" = [85; 110; 116; 105; 116; 108; 101; 100]%N.
Proof. reflexivity. Qed.

Example trim_spaces : trim (lit "  a b  ") = lit "a b".
Proof. reflexivity. Qed.

Example trim_nbsp : trim [160; 65; 8232]%N = [65]%N.
Proof. reflexivity. Qed.

Example ofZ_ex :
  ofZ 1700000000123 = lit "1700000000123" /\ ofZ (-5) = lit "-5" /\ ofZ 0 = lit "0".
Proof. repeat split. Qed.

Lemma trimStart_nil (s : jsstring) : trimStart s = [] <-> all_ws s = true.
Proof.
  induction s as [|c r IH]; simpl.
  - tauto.
  - destruct (is_ws c); simpl.
    + exact IH.
    + split; discriminate.
Qed.

Lemma all_ws_rev (s : jsstring) : all_ws (rev s) = all_ws s.
Proof.
  unfold all_ws. induction s as [|c r IH]; simpl; [reflexivity|].
  rewrite forallb_app, IH. simpl. rewrite andb_true_r. apply andb_comm.
Qed.

(** What [trimStart] leaves starts with a character that is not white space. *)
Lemma trimStart_head (s : jsstring) :
  match trimStart s with
  | [] => True
  | c :: _ => is_ws c = false
  end.
Proof.
  induction s as [|c r IH]; simpl; [exact I|].
  destruct (is_ws c) eqn:E; [exact IH | exact E].
Qed.

Lemma trimStart_fixed (s : jsstring) :
  match s with [] => True | c :: _ => is_ws c = false end -> trimStart s = s.
Proof.
  destruct s as [|c r]; simpl; [reflexivity|]. now intros ->.
Qed.

(** [s.trim()] is empty exactly for the white-space-only strings. *)
Lemma trim_nil (s : jsstring) : trim s = [] <-> all_ws s = true.
Proof.
  unfold trim, trimEnd. split.
  - intros H.
    assert (H1 : trimStart (rev (trimStart s)) = []).
    { destruct (trimStart (rev (trimStart s))) as [|c r]; [reflexivity|].
      simpl in H. now destruct (rev r). }
    apply trimStart_nil in H1. rewrite all_ws_rev in H1.
    pose proof (trimStart_head s) as Hh.
    destruct (trimStart s) as [|c r] eqn:E.
    + now apply trimStart_nil.
    + simpl in H1. rewrite Hh in H1. discriminate.
  - intros H. apply trimStart_nil in H. now rewrite H.
Qed.

Lemma trim_not_nil (s : jsstring) : all_ws s = false -> trim s <> [].
Proof.
  intros H E. apply trim_nil in E. congruence.
Qed.

(** A trimmed string has no white space at either end, so trimming again
    changes nothing (the [trim] setter of the schemas after the handler's own
    [trim]). *)
Lemma trimStart_idem (s : jsstring) : trimStart (trimStart s) = trimStart s.
Proof.
  apply trimStart_fixed, trimStart_head.
Qed.

Lemma trimStart_app_keep (s t : jsstring) :
  trimStart s <> [] -> trimStart (s ++ t) = trimStart s ++ t.
Proof.
  induction s as [|c r IH]; simpl; [congruence|].
  destruct (is_ws c); [exact IH | reflexivity].
Qed.

Lemma trim_idem (s : jsstring) : trim (trim s) = trim s.
Proof.
  unfold trim, trimEnd.
  set (u := trimStart (rev (trimStart s))).
  assert (Hu : trimStart u = u) by apply trimStart_idem.
  destruct u as [|c r] eqn:E; [reflexivity|].
  assert (Hs : trimStart (rev (c :: r)) = rev (c :: r)).
  { (* [rev u] is a prefix of [trimStart s]: it starts as [trimStart s] does *)
    pose proof (trimStart_head s) as Hh.
    destruct (trimStart s) as [|a q] eqn:Es; [discriminate E|].
    assert (Hrev : exists w, rev (a :: q) = w ++ c :: r).
    { clear -E. subst u. revert E. generalize (rev (a :: q)) as l.
      induction l as [|x l IH]; simpl; [discriminate|].
      destruct (is_ws x).
      - intros H. destruct (IH H) as [w Hw]. exists (x :: w). now rewrite Hw.
      - intros H. exists []. now rewrite H. }
    destruct Hrev as [w Hw].
    apply (f_equal (@rev _)) in Hw. rewrite rev_involutive, rev_app_distr in Hw.
    destruct (rev (c :: r)) as [|b t] eqn:Er.
    - reflexivity.
    - simpl in Hw. injection Hw as <- _. simpl. now rewrite Hh. }
  rewrite Hs, rev_involutive. now rewrite Hu.
Qed.

(** ** Form fields *)

Lemma orElse_trim_lit (s d : jsstring) :
  all_ws s = true -> orElse (trim s) d = d.
Proof.
  intros H. apply trim_nil in H. now rewrite H.
Qed.

Lemma blank_cases (v : jsval) :
  blank v = true ->
  truthy v = false \/ exists s, v = JStr s /\ all_ws s = true.
Proof.
  destruct v; simpl; try discriminate; auto.
  intros H. right. now exists s.
Qed.

Lemma newTitle_blank (v : jsval) :
  blank v = true -> newTitle v = Some (lit "Untitled").
Proof.
  intros H. unfold newTitle, orLit.
  destruct (blank_cases v H) as [F | [s [-> Hs]]].
  - rewrite F. reflexivity.
  - destruct (truthy (JStr s)); simpl; [|reflexivity].
    now rewrite orElse_trim_lit.
Qed.

Lemma feedbackName_blank (v : jsval) :
  blank v = true -> feedbackName v = Some (lit "Anonymous").
Proof.
  intros H. unfold feedbackName, orLit.
  destruct (blank_cases v H) as [F | [s [-> Hs]]].
  - rewrite F. reflexivity.
  - destruct (truthy (JStr s)); simpl; [|reflexivity].
    now rewrite orElse_trim_lit.
Qed.

Lemma trimmedMessage_blank (v : jsval) :
  blank v = true -> trimmedMessage v = Some [].
Proof.
  intros H. unfold trimmedMessage, orLit.
  destruct (blank_cases v H) as [F | [s [-> Hs]]].
  - rewrite F. reflexivity.
  - apply trim_nil in Hs.
    destruct (truthy (JStr s)); simpl; [now rewrite Hs | reflexivity].
Qed.

Lemma updatedTitle_blank (v : jsval) :
  blank v = true -> updatedTitle v = Some None.
Proof.
  intros H. unfold updatedTitle, orLit.
  destruct (blank_cases v H) as [F | [s [-> Hs]]].
  - rewrite F. reflexivity.
  - apply trim_nil in Hs.
    destruct (truthy (JStr s)); simpl; [now rewrite Hs | reflexivity].
Qed.

Lemma trimmedMessage_nonblank (v : jsval) :
  nonblank v = true ->
  exists s, v = JStr s /\ trimmedMessage v = Some (trim s) /\ trim s <> [].
Proof.
  destruct v; simpl; try discriminate.
  intros H. apply negb_true_iff in H. exists s. split; [reflexivity|].
  split; [|now apply trim_not_nil].
  unfold trimmedMessage, orLit. simpl.
  destruct s; [discriminate H | reflexivity].
Qed.

(** The title a [POST /items] stores is never empty and is already trimmed. *)
Lemma newTitle_trimmed (v : jsval) (t : jsstring) :
  newTitle v = Some t -> t <> [] /\ trim t = t.
Proof.
  unfold newTitle. destruct (toString _) as [s|]; [|discriminate].
  intros [= <-]. destruct (trim s) as [|c r] eqn:E; simpl.
  - split; [discriminate | reflexivity].
  - split; [discriminate|]. rewrite <- E. apply trim_idem.
Qed.

(** ** The models *)

Lemma Item_create_Ok (m : driver) (coll : list Item.doc) (t c : jsstring)
  (d : Item.doc) (coll' : list Item.doc) :
  Item.create m coll t (Some c) = Ok (d, coll') ->
  coll' = coll ++ [d] /\ Item.title d = trim t /\ Item.content d = c /\
  Item._id d = objectId m /\ fault m = None.
Proof.
  unfold Item.create.
  destruct (trim t) as [|x r]; [discriminate|].
  destruct (fault m); [discriminate|].
  destruct (existsb _ coll); [discriminate|].
  intros [= <- <-]. simpl. auto.
Qed.

Lemma Item_create_succeeds (m : driver) (coll : list Item.doc) (t c : jsstring) :
  trim t <> [] -> fault m = None ->
  existsb (Item.hasId (objectId m)) coll = false ->
  exists d, Item.create m coll t (Some c) = Ok (d, coll ++ [d]).
Proof.
  intros Ht Hf Hid. unfold Item.create. rewrite Hf, Hid.
  destruct (trim t) as [|x r]; [congruence|]. eauto.
Qed.

Lemma Feedback_create_Ok (m : driver) (coll : list FeedbackModel.doc)
  (n msg : jsstring) (d : FeedbackModel.doc) (coll' : list FeedbackModel.doc) :
  FeedbackModel.create m coll (Some n) msg = Ok (d, coll') ->
  coll' = coll ++ [d] /\ FeedbackModel.name d = trim n /\
  FeedbackModel.message d = trim msg /\ FeedbackModel._id d = objectId m /\
  fault m = None.
Proof.
  unfold FeedbackModel.create.
  destruct (trim msg) as [|x r]; [discriminate|].
  destruct (fault m); [discriminate|].
  destruct (existsb _ coll); [discriminate|].
  intros [= <- <-]. simpl. auto.
Qed.

Lemma Feedback_create_succeeds (m : driver) (coll : list FeedbackModel.doc)
  (n msg : jsstring) :
  trim msg <> [] -> fault m = None ->
  existsb (FeedbackModel.hasId (objectId m)) coll = false ->
  exists d, FeedbackModel.create m coll (Some n) msg = Ok (d, coll ++ [d]).
Proof.
  intros Ht Hf Hid. unfold FeedbackModel.create. rewrite Hf, Hid.
  destruct (trim msg) as [|x r]; [congruence|]. eauto.
Qed.

(** ** The handlers *)

Example post_items_memory :
  handle (POST_items [text "title" " Milk "; text "content" "2 l"]) envUp memoryMode
  = (Responded (Redirect (lit "/items/1700000000123-k3x9qa")),
     set_memoryItems
       [{| MemoryItem.id := lit "1700000000123-k3x9qa";
           MemoryItem.title := lit "Milk";
           MemoryItem.content := lit "2 l";
           MemoryItem.createdAtIso := lit "2023-11-14T22:13:20.123Z";
           MemoryItem.updatedAtIso := lit "2023-11-14T22:13:20.124Z" |}]
       memoryMode).
Proof. reflexivity. Qed.

Example post_items_mongo :
  handle (POST_items [text "title" " Milk "; text "content" "2 l"]) envUp mongoMode
  = (Responded (Redirect (lit "/items/65f0c0ffee0123456789abcd")),
     set_items
       [{| Item._id := lit "65f0c0ffee0123456789abcd";
           Item.title := lit "Milk";
           Item.content := lit "2 l";
           Item.createdAt := 1700000000500;
           Item.updatedAt := 1700000000500 |}]
       mongoMode).
Proof. reflexivity. Qed.

(** C2. A [POST /items] whose [title] field is absent, empty or white space
    only stores the title ["Untitled"], in the collection or in
    [memoryItems]: whatever the request adds to either store has that title,
    and it adds exactly one item (when [content] can be turned into text,
    without which the handler throws before storing anything). *)
Theorem C2_blank_title_stores_Untitled (body : jsobject) (e : env) (st : state) :
  blank (field body "title") = true ->
  exists (pushed : list MemoryItem.t) (inserted : list Item.doc),
    memoryItems (snd (handle (POST_items body) e st)) = memoryItems st ++ pushed /\
    items (snd (handle (POST_items body) e st)) = items st ++ inserted /\
    Forall (fun i => MemoryItem.title i = lit "Untitled") pushed /\
    Forall (fun d => Item.title d = lit "Untitled") inserted /\
    (contentText (field body "content") <> None ->
     (List.length pushed + List.length inserted = 1)%nat).
Proof.
  intros Hb. simpl. unfold post_items. rewrite (newTitle_blank _ Hb).
  destruct (contentText (field body "content")) as [c|].
  2:{ exists [], []. simpl. rewrite !app_nil_r. repeat split; auto; congruence. }
  destruct (useMongoDB st).
  - destruct (Item.create (mongo e) (items st) (lit "Untitled") (Some c))
      as [[d coll]|err] eqn:E.
    + apply Item_create_Ok in E. destruct E as (-> & Ht & _).
      exists [], [d]. simpl. rewrite app_nil_r. repeat split; auto.
    + exists [newMemoryItem e (lit "Untitled") c], []. simpl.
      rewrite app_nil_r. repeat split; auto.
  - exists [newMemoryItem e (lit "Untitled") c], []. simpl.
    rewrite app_nil_r. repeat split; auto.
Qed.

Lemma C2_blank_title_stores_Untitled_witness :
  blank (field [text "title" "   "; text "content" "2 l"] "title") = true /\
  exists (pushed : list MemoryItem.t) (inserted : list Item.doc),
    memoryItems (snd (handle (POST_items [text "title" "   "; text "content" "2 l"])
                        envUp memoryMode))
      = memoryItems memoryMode ++ pushed /\
    items (snd (handle (POST_items [text "title" "   "; text "content" "2 l"])
                  envUp memoryMode))
      = items memoryMode ++ inserted /\
    Forall (fun i => MemoryItem.title i = lit "Untitled") pushed /\
    Forall (fun d => Item.title d = lit "Untitled") inserted /\
    (contentText (field [text "title" "   "; text "content" "2 l"] "content") <> None ->
     (List.length pushed + List.length inserted = 1)%nat).
Proof.
  split; [reflexivity|].
  apply (@C2_blank_title_stores_Untitled
           [text "title" "   "; text "content" "2 l"] envUp memoryMode).
  reflexivity.
Defined.

(** C3. A [POST /feedback] whose [message] field is absent, empty or white
    space only persists nothing (the whole state is as before) and still
    redirects to [/feedback]. *)
Theorem C3_blank_message_is_a_noop (body : jsobject) (e : env) (st : state) :
  blank (field body "message") = true ->
  handle (POST_feedback body) e st = (Responded (Redirect (lit "/feedback")), st).
Proof.
  intros Hb. simpl. unfold post_feedback.
  now rewrite (trimmedMessage_blank _ Hb).
Qed.

Lemma C3_blank_message_is_a_noop_witness :
  blank (field [text "name" "Ann"; text "message" "  "] "message") = true /\
  handle (POST_feedback [text "name" "Ann"; text "message" "  "]) envDown mongoMode
  = (Responded (Redirect (lit "/feedback")), mongoMode).
Proof.
  split; [reflexivity|].
  apply (@C3_blank_message_is_a_noop
           [text "name" "Ann"; text "message" "  "] envDown mongoMode).
  reflexivity.
Defined.

(** C6. [GET /health] answers 200 with the body ["OK"] in every state of
    the process (flag on or off) and whatever the driver would do (reachable
    or not); it reads and changes nothing. *)
Theorem C6_health_always_200_OK (e : env) (st : state) :
  exists r,
    handle GET_health e st = (Responded r, st) /\
    status r = 200 /\
    r = Send 200 (lit "OK").
Proof.
  exists (Send 200 (lit "OK")). repeat split.
Qed.

Example health_with_database_down :
  handle GET_health envDown mongoMode = (Responded (Send 200 (lit "OK")), mongoMode) /\
  handle GET_health envDown memoryMode = (Responded (Send 200 (lit "OK")), memoryMode).
Proof. split; reflexivity. Qed.

(** *** Looking an item up *)

Lemma find_doc_None (id : jsstring) (coll : list Item.doc) :
  List.find (Item.hasId id) coll = None <->
  ~ exists d, In d coll /\ Item._id d = id.
Proof.
  split.
  - intros H [d [Hin Hid]].
    apply (find_none _ _ H) in Hin. unfold Item.hasId in Hin.
    apply eqb_neq in Hin. contradiction.
  - intros H. destruct (List.find (Item.hasId id) coll) as [d|] eqn:E; [|reflexivity].
    apply find_some in E. destruct E as [Hin Hid].
    apply eqb_eq in Hid. exfalso. apply H. now exists d.
Qed.

Lemma find_memory_None (id : jsstring) (l : list MemoryItem.t) :
  List.find (fun i => eqb (MemoryItem.id i) id) l = None <->
  ~ exists i, In i l /\ MemoryItem.id i = id.
Proof.
  split.
  - intros H [i [Hin Hid]].
    apply (find_none _ _ H) in Hin. apply eqb_neq in Hin. contradiction.
  - intros H.
    destruct (List.find (fun i => eqb (MemoryItem.id i) id) l) as [i|] eqn:E;
      [|reflexivity].
    apply find_some in E. destruct E as [Hin Hid].
    apply eqb_eq in Hid. exfalso. apply H. now exists i.
Qed.

Lemma showMemoryItem_unknown (id url : jsstring) (st : state) :
  ~ stored Memory st id ->
  showMemoryItem id url st = (Responded (render404 url), st).
Proof.
  intros H. unfold showMemoryItem.
  apply find_memory_None in H. now rewrite H.
Qed.

Lemma showMemoryItem_known (id url : jsstring) (st : state) :
  stored Memory st id ->
  exists item, In item (memoryItems st) /\ MemoryItem.id item = id /\
    showMemoryItem id url st =
      (Responded (Render 200 (MemoryItem.title item) (items_show (viewOfMemory item))), st).
Proof.
  intros H. unfold showMemoryItem.
  destruct (List.find _ (memoryItems st)) as [i|] eqn:E.
  - apply find_some in E. destruct E as [Hin Hid]. apply eqb_eq in Hid. eauto.
  - apply find_memory_None in E. contradiction.
Qed.

Example get_unknown_item_memory :
  handle (GET_items_id (lit "nope") (lit "/items/nope")) envUp memoryMode
  = (Responded (Render 404 (lit "Not Found") (not_found (lit "/items/nope"))), memoryMode).
Proof. reflexivity. Qed.

Lemma get_items_id_unknown (id url : jsstring) (e : env) (st : state) :
  ~ stored (activeStore e st) st id ->
  fst (handle (GET_items_id id url) e st) = Responded (render404 url).
Proof.
  intros H. simpl. unfold get_items_id, activeStore in *.
  destruct (useMongoDB st).
  - unfold Item.findById. destruct (fault (mongo e)) as [msg|].
    + rewrite showMemoryItem_unknown; [reflexivity|exact H].
    + apply find_doc_None in H. now rewrite H.
  - now rewrite showMemoryItem_unknown.
Qed.

(** C4. A [GET /items/:id] whose id matches no item of the store that
    answers the request (the collection when the flag is on and the call
    succeeds, [memoryItems] otherwise) gets status 404 and the 404 page. *)
Theorem C4_unknown_item_is_404 (id url : jsstring) (e : env) (st : state) :
  ~ stored (activeStore e st) st id ->
  exists r,
    fst (handle (GET_items_id id url) e st) = Responded r /\
    status r = 404 /\
    r = Render 404 (lit "Not Found") (not_found url) /\
    template (not_found url) = "404"%string.
Proof.
  intros H. exists (render404 url). repeat split.
  now apply get_items_id_unknown.
Qed.

Lemma C4_unknown_item_is_404_witness :
  ~ stored (activeStore envUp mongoMode) mongoMode (lit "65f0c0ffee0123456789abcd") /\
  exists r,
    fst (handle (GET_items_id (lit "65f0c0ffee0123456789abcd")
                   (lit "/items/65f0c0ffee0123456789abcd")) envUp mongoMode)
      = Responded r /\
    status r = 404 /\
    r = Render 404 (lit "Not Found") (not_found (lit "/items/65f0c0ffee0123456789abcd")) /\
    template (not_found (lit "/items/65f0c0ffee0123456789abcd")) = "404"%string.
Proof.
  assert (H : ~ stored (activeStore envUp mongoMode) mongoMode
                (lit "65f0c0ffee0123456789abcd")).
  { simpl. intros [d [[] _]]. }
  split; [exact H|].
  exact (@C4_unknown_item_is_404 (lit "65f0c0ffee0123456789abcd")
           (lit "/items/65f0c0ffee0123456789abcd") envUp mongoMode H).
Defined.

(** The other direction: an id the answering store knows is rendered with
    status 200, so the 404 is given for the unknown ids only. *)
Lemma known_item_is_200 (id url : jsstring) (e : env) (st : state) :
  stored (activeStore e st) st id ->
  exists title item,
    fst (handle (GET_items_id id url) e st)
      = Responded (Render 200 title (items_show item)) /\
    ItemView.id item = id.
Proof.
  intros H. simpl. unfold get_items_id, activeStore in *.
  destruct (useMongoDB st).
  - unfold Item.findById. destruct (fault (mongo e)) as [msg|].
    + destruct (@showMemoryItem_known id url
                  (print (Error "MongoDB error:" (DriverError msg)) st) H)
        as (i & _ & Hid & ->).
      now exists (MemoryItem.title i), (viewOfMemory i).
    + destruct (List.find (Item.hasId id) (items st)) as [d|] eqn:E.
      * apply find_some in E. destruct E as [_ Hid]. apply eqb_eq in Hid.
        now exists (Item.title d), (viewOfDoc d).
      * apply find_doc_None in E. contradiction.
  - destruct (@showMemoryItem_known id url st H) as (i & _ & Hid & ->).
    now exists (MemoryItem.title i), (viewOfMemory i).
Qed.

(** An id that neither store knows is a 404 whatever the flag and the driver do. *)
Lemma unknown_everywhere_is_404 (id url : jsstring) (e : env) (st : state) :
  ~ stored Database st id -> ~ stored Memory st id ->
  fst (handle (GET_items_id id url) e st) = Responded (render404 url).
Proof.
  intros Hd Hm. apply get_items_id_unknown.
  unfold activeStore. destruct (useMongoDB st); [destruct (fault (mongo e))|]; assumption.
Qed.

(** *** Feedback *)

Example post_feedback_mongo :
  handle (POST_feedback [text "name" "  "; text "message" " hello "]) envUp mongoMode
  = (Responded (Redirect (lit "/feedback")),
     set_feedbacks
       [{| FeedbackModel._id := lit "65f0c0ffee0123456789abcd";
           FeedbackModel.name := lit "Anonymous";
           FeedbackModel.message := lit "hello";
           FeedbackModel.createdAt := 1700000000500;
           FeedbackModel.updatedAt := 1700000000500 |}]
       mongoMode).
Proof. reflexivity. Qed.

(** What a request does to the feedback stores: the collection gets at most
    one document, at its end, and [memoryFeedback] is never written. *)
Lemma handle_feedbacks (r : request) (e : env) (st : state) :
  exists added,
    feedbacks (snd (handle r e st)) = feedbacks st ++ added /\
    (List.length added <= 1)%nat /\
    memoryFeedback (snd (handle r e st)) = memoryFeedback st.
Proof.
  assert (Same : forall st', feedbacks st' = feedbacks st ->
                   memoryFeedback st' = memoryFeedback st ->
                   exists added, feedbacks st' = feedbacks st ++ added /\
                     (List.length added <= 1)%nat /\
                     memoryFeedback st' = memoryFeedback st).
  { intros st' H1 H2. exists []. rewrite app_nil_r. simpl. auto. }
  destruct r; simpl; try (apply Same; reflexivity).
  - (* GET /items *)
    unfold get_items. destruct (useMongoDB st); [destruct (Item.find _ _)|];
      apply Same; reflexivity.
  - (* POST /items *)
    unfold post_items.
    destruct (newTitle _); [|apply Same; reflexivity].
    destruct (contentText _); [|apply Same; reflexivity].
    destruct (useMongoDB st); [destruct (Item.create _ _ _ _) as [[d c]|]|];
      apply Same; reflexivity.
  - (* GET /items/:id *)
    unfold get_items_id, showMemoryItem.
    destruct (useMongoDB st);
      [destruct (Item.findById _ _ _) as [[d|]|]; simpl|];
      try destruct (List.find _ _); apply Same; reflexivity.
  - (* GET /items/:id/edit *)
    unfold get_items_id_edit.
    destruct (Item.findById _ _ _) as [[d|]|]; apply Same; reflexivity.
  - (* PUT /items/:id *)
    unfold put_items_id.
    destruct (updatedTitle _); [|apply Same; reflexivity].
    destruct (contentText _); [|apply Same; reflexivity].
    destruct (Item.findByIdAndUpdate _ _ _ _ _) as [[[d|] c]|];
      apply Same; reflexivity.
  - (* DELETE /items/:id *)
    unfold delete_items_id.
    destruct (Item.findByIdAndDelete _ _ _) as [[[d|] c]|];
      apply Same; reflexivity.
  - (* GET /feedback *)
    unfold get_feedback. destruct (FeedbackModel.find _ _); apply Same; reflexivity.
  - (* POST /feedback *)
    unfold post_feedback.
    destruct (trimmedMessage _) as [[|c m]|]; try (apply Same; reflexivity).
    destruct (feedbackName _) as [n|]; [|apply Same; reflexivity].
    destruct (FeedbackModel.create _ _ _ _) as [[d coll]|] eqn:E;
      [|apply Same; reflexivity].
    apply Feedback_create_Ok in E. destruct E as (-> & _).
    exists [d]. simpl. auto.
Qed.

Lemma step_feedbacks (st : state) (ev : event) :
  exists added,
    feedbacks (step st ev) = feedbacks st ++ added /\
    memoryFeedback (step st ev) = memoryFeedback st.
Proof.
  destruct ev as [| msg | r e]; simpl.
  - exists []. now rewrite app_nil_r.
  - exists []. now rewrite app_nil_r.
  - destruct (handle_feedbacks r e st) as (added & H1 & _ & H2). eauto.
Qed.

(** Over any run of the process the feedback collection only grows at its
    end, and [memoryFeedback] stays as it was. *)
Lemma run_feedbacks (evs : list event) (st : state) :
  exists added,
    feedbacks (run st evs) = feedbacks st ++ added /\
    memoryFeedback (run st evs) = memoryFeedback st.
Proof.
  revert st. induction evs as [|ev evs IH]; intros st; simpl.
  - exists []. now rewrite app_nil_r.
  - destruct (IH (step st ev)) as (a2 & H2 & M2).
    destruct (step_feedbacks st ev) as (a1 & H1 & M1).
    exists (a1 ++ a2). rewrite H2, H1, M2, M1, app_assoc. auto.
Qed.

(** C5. Feedback is append-only: whatever the request, every entry that is
    in the feedback store before it is in the store after it, unmodified and
    at the same position, the store being the old one followed by what the
    request added; nothing is ever written to [memoryFeedback]. *)
Theorem C5_feedback_is_append_only (r : request) (e : env) (st : state) :
  (exists added, feedbacks (snd (handle r e st)) = feedbacks st ++ added) /\
  (forall n f, nth_error (feedbacks st) n = Some f ->
               nth_error (feedbacks (snd (handle r e st))) n = Some f) /\
  (forall f, In f (feedbacks st) -> In f (feedbacks (snd (handle r e st)))) /\
  memoryFeedback (snd (handle r e st)) = memoryFeedback st.
Proof.
  destruct (handle_feedbacks r e st) as (added & H & _ & M).
  rewrite H, M. repeat split.
  - now exists added.
  - intros n f Hn. rewrite nth_error_app1; [exact Hn|].
    apply nth_error_Some. congruence.
  - intros f Hf. apply in_or_app. now left.
Qed.

(** C8. A [POST /feedback] with a message that is not blank and a [name]
    that is absent, empty or white space only persists its entry under the
    name ["Anonymous"]: whatever the request adds to the feedback store has
    that name, and when the model call succeeds it adds exactly one entry,
    with that name and the trimmed message. *)
Theorem C8_blank_name_is_Anonymous (body : jsobject) (e : env) (st : state) :
  nonblank (field body "message") = true ->
  blank (field body "name") = true ->
  exists added,
    feedbacks (snd (handle (POST_feedback body) e st)) = feedbacks st ++ added /\
    Forall (fun f => FeedbackModel.name f = lit "Anonymous") added /\
    (fault (mongo e) = None ->
     existsb (FeedbackModel.hasId (objectId (mongo e))) (feedbacks st) = false ->
     exists f s, added = [f] /\ FeedbackModel.name f = lit "Anonymous" /\
       field body "message" = JStr s /\ FeedbackModel.message f = trim s).
Proof.
  intros Hm Hn. simpl. unfold post_feedback.
  destruct (trimmedMessage_nonblank _ Hm) as (s & Hs & -> & Hne).
  rewrite (feedbackName_blank _ Hn).
  destruct (trim s) as [|c m] eqn:Et; [congruence|].
  destruct (FeedbackModel.create (mongo e) (feedbacks st) (Some (lit "Anonymous")) (c :: m))
    as [[d coll]|err] eqn:E.
  - apply Feedback_create_Ok in E. destruct E as (-> & Hname & Hmsg & _).
    exists [d]. simpl. repeat split; auto.
    intros _ _. exists d, s. repeat split; auto.
    rewrite Hmsg, <- Et. apply trim_idem.
  - exists []. simpl. rewrite app_nil_r. repeat split; auto.
    intros Hf Hid.
    destruct (@Feedback_create_succeeds (mongo e) (feedbacks st)
                (lit "Anonymous") (c :: m)) as [d Hd]; auto.
    + rewrite <- Et, trim_idem. congruence.
    + congruence.
Qed.

Lemma C8_blank_name_is_Anonymous_witness :
  nonblank (field [text "name" "  "; text "message" " hello "] "message") = true /\
  blank (field [text "name" "  "; text "message" " hello "] "name") = true /\
  exists added,
    feedbacks (snd (handle (POST_feedback [text "name" "  "; text "message" " hello "])
                      envUp mongoMode))
      = feedbacks mongoMode ++ added /\
    Forall (fun f => FeedbackModel.name f = lit "Anonymous") added /\
    (fault (mongo envUp) = None ->
     existsb (FeedbackModel.hasId (objectId (mongo envUp))) (feedbacks mongoMode) = false ->
     exists f s, added = [f] /\ FeedbackModel.name f = lit "Anonymous" /\
       field [text "name" "  "; text "message" " hello "] "message" = JStr s /\
       FeedbackModel.message f = trim s).
Proof.
  split; [reflexivity|]. split; [reflexivity|].
  apply (@C8_blank_name_is_Anonymous
           [text "name" "  "; text "message" " hello "] envUp mongoMode);
    reflexivity.
Defined.

(** *** Updating an item *)

Lemma updateOne_found (id : jsstring) (f : Item.doc -> Item.doc)
  (coll : list Item.doc) (d : Item.doc) :
  (forall x, Item._id (f x) = Item._id x) ->
  List.find (Item.hasId id) coll = Some d ->
  exists coll',
    Item.updateOne id f coll = (Some (f d), coll') /\
    List.find (Item.hasId id) coll' = Some (f d) /\
    (forall id', id' <> id ->
       List.find (Item.hasId id') coll' = List.find (Item.hasId id') coll) /\
    map Item._id coll' = map Item._id coll.
Proof.
  intros Hf. induction coll as [|x r IH]; simpl; [discriminate|].
  destruct (Item.hasId id x) eqn:E.
  - intros [= <-]. exists (f x :: r). simpl.
    assert (E' : Item.hasId id (f x) = true).
    { unfold Item.hasId in *. now rewrite Hf. }
    rewrite E'. repeat split.
    + intros id' Hne. unfold Item.hasId in *. rewrite Hf.
      apply eqb_eq in E. rewrite E.
      assert (N : eqb id id' = false) by (apply eqb_neq; congruence).
      now rewrite N.
    + now rewrite Hf.
  - intros H. destruct (IH H) as (coll' & -> & H1 & H2 & H3).
    exists (x :: coll'). simpl. rewrite E. repeat split; auto.
    + intros id' Hne. destruct (Item.hasId id' x); auto.
    + now rewrite H3.
Qed.

Lemma updateOne_missing (id : jsstring) (f : Item.doc -> Item.doc)
  (coll : list Item.doc) :
  List.find (Item.hasId id) coll = None -> Item.updateOne id f coll = (None, coll).
Proof.
  induction coll as [|x r IH]; simpl; [reflexivity|].
  destruct (Item.hasId id x); [discriminate|].
  intros H. now rewrite (IH H).
Qed.

Lemma contentText_text (s : jsstring) : contentText (JStr s) = Some s.
Proof. now destruct s. Qed.

Lemma contentText_absent : contentText JUndefined = Some [].
Proof. reflexivity. Qed.

(** A collection with one item, as [POST /items] leaves it. *)
Example put_blank_title :
  let st := snd (handle (POST_items [text "title" "Milk"; text "content" "2 l"])
                   envUp mongoMode) in
  items (snd (handle (PUT_items_id (lit "65f0c0ffee0123456789abcd")
                        [text "title" "  "; text "content" "3 l"]
                        (lit "/items/65f0c0ffee0123456789abcd?_method=PUT"))
                envUp st))
  = [{| Item._id := lit "65f0c0ffee0123456789abcd";
        Item.title := lit "Milk";
        Item.content := lit "3 l";
        Item.createdAt := 1700000000500;
        Item.updatedAt := 1700000000500 |}].
Proof. reflexivity. Qed.

(** C9. A [PUT /items/:id] whose [title] field is absent, empty or white
    space only, on an item of the collection (the update call succeeding),
    leaves the stored title as it was, neither emptied nor reset to
    ["Untitled"], sets the stored content to the submitted one, and
    redirects to the item. *)
Theorem C9_blank_title_keeps_stored_title (id : jsstring) (body : jsobject)
  (url : jsstring) (e : env) (st : state) (d : Item.doc) (c : jsstring) :
  blank (field body "title") = true ->
  contentText (field body "content") = Some c ->
  fault (mongo e) = None ->
  List.find (Item.hasId id) (items st) = Some d ->
  exists d',
    fst (handle (PUT_items_id id body url) e st)
      = Responded (Redirect (lit "/items/" ++ id)) /\
    List.find (Item.hasId id) (items (snd (handle (PUT_items_id id body url) e st)))
      = Some d' /\
    Item.title d' = Item.title d /\
    Item.content d' = c /\
    Item._id d' = id /\
    Item.createdAt d' = Item.createdAt d.
Proof.
  intros Hb Hc Hf Hd. simpl. unfold put_items_id.
  rewrite (updatedTitle_blank _ Hb), Hc.
  unfold Item.findByIdAndUpdate. rewrite Hf.
  destruct (@updateOne_found id (Item.set (mongo e) None c) (items st) d)
    as (coll' & -> & Hfind & _); [reflexivity | exact Hd |].
  exists (Item.set (mongo e) None c d). simpl.
  apply find_some in Hd. destruct Hd as [_ Hid]. apply eqb_eq in Hid.
  rewrite Hid. repeat split; auto.
Qed.

Lemma C9_blank_title_keeps_stored_title_witness :
  let id := lit "65f0c0ffee0123456789abcd" in
  let body := [text "title" "  "; text "content" "3 l"] in
  let url := lit "/items/65f0c0ffee0123456789abcd?_method=PUT" in
  let st := snd (handle (POST_items [text "title" "Milk"; text "content" "2 l"])
                   envUp mongoMode) in
  let d := {| Item._id := id; Item.title := lit "Milk"; Item.content := lit "2 l";
              Item.createdAt := 1700000000500; Item.updatedAt := 1700000000500 |} in
  blank (field body "title") = true /\
  contentText (field body "content") = Some (lit "3 l") /\
  fault (mongo envUp) = None /\
  List.find (Item.hasId id) (items st) = Some d /\
  exists d',
    fst (handle (PUT_items_id id body url) envUp st)
      = Responded (Redirect (lit "/items/" ++ id)) /\
    List.find (Item.hasId id) (items (snd (handle (PUT_items_id id body url) envUp st)))
      = Some d' /\
    Item.title d' = Item.title d /\
    Item.content d' = lit "3 l" /\
    Item._id d' = id /\
    Item.createdAt d' = Item.createdAt d.
Proof.
  intros id body url st d.
  split; [reflexivity|]. split; [reflexivity|].
  split; [reflexivity|]. split; [reflexivity|].
  apply (@C9_blank_title_keeps_stored_title id body url envUp st d (lit "3 l"));
    reflexivity.
Defined.

(** The other documents of the collection are not touched by the update. *)
Lemma put_items_id_frame (id id' : jsstring) (body : jsobject) (url : jsstring)
  (e : env) (st : state) :
  id' <> id ->
  List.find (Item.hasId id') (items (snd (handle (PUT_items_id id body url) e st)))
  = List.find (Item.hasId id') (items st).
Proof.
  intros Hne. simpl. unfold put_items_id.
  destruct (updatedTitle _) as [t|]; [|reflexivity].
  destruct (contentText _) as [c|]; [|reflexivity].
  unfold Item.findByIdAndUpdate. destruct (fault (mongo e)); [reflexivity|].
  destruct (List.find (Item.hasId id) (items st)) as [d|] eqn:E.
  - destruct (@updateOne_found id (Item.set (mongo e) t c) (items st) d)
      as (coll' & -> & _ & Hframe & _); [reflexivity | exact E |].
    simpl. now apply Hframe.
  - now rewrite (updateOne_missing _ _ _ E).
Qed.

(** With a title that is not blank the stored title is the trimmed one. *)
Example put_new_title :
  let st := snd (handle (POST_items [text "title" "Milk"; text "content" "2 l"])
                   envUp mongoMode) in
  map Item.title
    (items (snd (handle (PUT_items_id (lit "65f0c0ffee0123456789abcd")
                           [text "title" " Oat milk "; text "content" "3 l"]
                           (lit "/items/65f0c0ffee0123456789abcd?_method=PUT"))
                   envUp st)))
  = [lit "Oat milk"].
Proof. reflexivity. Qed.

(** *** Create then fetch, in memory *)

Lemma find_snoc {A : Type} (p : A -> bool) (l : list A) (x : A) :
  List.find p (l ++ [x]) =
  match List.find p l with
  | Some y => Some y
  | None => if p x then Some x else None
  end.
Proof.
  induction l as [|a l IH]; simpl; [reflexivity|].
  destruct (p a); [reflexivity | exact IH].
Qed.

(** [Array.prototype.find] returns the first match: an item pushed under an
    id that an older item has is not the one a lookup finds. *)
Lemma find_snoc_shadowed (id : jsstring) (l : list MemoryItem.t)
  (old item : MemoryItem.t) :
  List.find (fun i => eqb (MemoryItem.id i) id) l = Some old ->
  List.find (fun i => eqb (MemoryItem.id i) id) (l ++ [item]) = Some old.
Proof.
  intros H. now rewrite find_snoc, H.
Qed.

(** C10, as amended. In memory mode, a [POST /items] whose [title] and
    [content] can be turned into text and whose generated id is not the id of
    an item already in [memoryItems] appends exactly one item, under that
    id, redirects to [/items/<id>], and the [GET /items/<id>] that follows
    finds and renders that same item. *)
Theorem C10_create_then_fetch_with_unused_id (body : jsobject) (e : env)
  (url : jsstring) (e' : env) (st : state) :
  useMongoDB st = false ->
  newTitle (field body "title") <> None ->
  contentText (field body "content") <> None ->
  ~ stored Memory st (generatedId e) ->
  create_then_fetch body e url e' st.
Proof.
  intros Hm Ht Hc Hfresh. unfold create_then_fetch. simpl. unfold post_items.
  destruct (newTitle (field body "title")) as [t|]; [|congruence].
  destruct (contentText (field body "content")) as [c|]; [|congruence].
  rewrite Hm. exists (newMemoryItem e t c).
  split; [reflexivity|]. split; [reflexivity|].
  unfold pushMemoryItem, get_items_id.
  change (useMongoDB (snd (_, set_memoryItems ?l st))) with (useMongoDB st).
  rewrite Hm. unfold showMemoryItem.
  change (memoryItems (snd (_, set_memoryItems ?l st))) with l.
  rewrite find_snoc.
  apply find_memory_None in Hfresh.
  change (MemoryItem.id (newMemoryItem e t c)) with (generatedId e).
  rewrite Hfresh, eqb_refl. reflexivity.
Qed.

Lemma C10_create_then_fetch_with_unused_id_witness :
  useMongoDB memoryMode = false /\
  newTitle (field [text "title" " Milk "; text "content" "2 l"] "title") <> None /\
  contentText (field [text "title" " Milk "; text "content" "2 l"] "content") <> None /\
  ~ stored Memory memoryMode (generatedId envUp) /\
  create_then_fetch [text "title" " Milk "; text "content" "2 l"] envUp
    (lit "/items/1700000000123-k3x9qa") envDown memoryMode.
Proof.
  assert (H1 : newTitle (field [text "title" " Milk "; text "content" "2 l"] "title")
               <> None) by (simpl; discriminate).
  assert (H2 : contentText (field [text "title" " Milk "; text "content" "2 l"] "content")
               <> None) by (simpl; discriminate).
  assert (H3 : ~ stored Memory memoryMode (generatedId envUp)).
  { simpl. intros [i [[] _]]. }
  repeat split; try assumption.
  exact (@C10_create_then_fetch_with_unused_id
           [text "title" " Milk "; text "content" "2 l"] envUp
           (lit "/items/1700000000123-k3x9qa") envDown memoryMode
           eq_refl H1 H2 H3).
Defined.

(** C10 as stated fails when the clock and the random suffix of a request
    repeat those of an earlier one: the second item is pushed under the id
    of the first, and the fetch of that id renders the first item. *)
Lemma C10_same_id_fetches_the_older_item :
  ~ create_then_fetch [text "title" "second"; text "content" "b"] envUp
      (lit "/items/1700000000123-k3x9qa") envUp
      (run memoryMode
         [Request (POST_items [text "title" "first"; text "content" "a"]) envUp]).
Proof.
  intros (item & _ & Hpost & Hget).
  assert (Hitem : item = newMemoryItem envUp (lit "second") (lit "b")).
  { apply (f_equal snd) in Hpost. apply (f_equal memoryItems) in Hpost.
    simpl in Hpost. injection Hpost as Hpost. now symmetry. }
  subst item. vm_compute in Hget. discriminate Hget.
Qed.

(** What the fetch renders there: the item created first. *)
Example same_id_fetch :
  let st := run memoryMode
              [Request (POST_items [text "title" "first"; text "content" "a"]) envUp;
               Request (POST_items [text "title" "second"; text "content" "b"]) envUp] in
  map MemoryItem.title (memoryItems st) = [lit "first"; lit "second"] /\
  map MemoryItem.id (memoryItems st)
    = [lit "1700000000123-k3x9qa"; lit "1700000000123-k3x9qa"] /\
  exists item,
    fst (handle (GET_items_id (lit "1700000000123-k3x9qa")
                   (lit "/items/1700000000123-k3x9qa")) envUp st)
      = Responded (Render 200 (lit "first") (items_show item)) /\
    ItemView.content item = Some (lit "a").
Proof.
  repeat split. eexists. split; reflexivity.
Qed.

(** No request removes or rewrites an element of [memoryItems]: the array
    only grows at its end, whatever the route. *)
Lemma handle_memoryItems (r : request) (e : env) (st : state) :
  exists pushed,
    memoryItems (snd (handle r e st)) = memoryItems st ++ pushed /\
    useMongoDB (snd (handle r e st)) = useMongoDB st.
Proof.
  assert (Same : forall st', memoryItems st' = memoryItems st ->
                   useMongoDB st' = useMongoDB st ->
                   exists pushed, memoryItems st' = memoryItems st ++ pushed /\
                     useMongoDB st' = useMongoDB st).
  { intros st' H1 H2. exists []. now rewrite app_nil_r. }
  destruct r; simpl; try (apply Same; reflexivity).
  - unfold get_items. destruct (useMongoDB st) eqn:U; [destruct (Item.find _ _)|];
      apply Same; simpl; auto.
  - unfold post_items.
    destruct (newTitle _) as [t|]; [|apply Same; reflexivity].
    destruct (contentText _) as [c|]; [|apply Same; reflexivity].
    destruct (useMongoDB st) eqn:U;
      [destruct (Item.create _ _ _ _) as [[d coll]|]|]; simpl.
    + apply Same; simpl; auto.
    + exists [newMemoryItem e t c]. simpl. auto.
    + exists [newMemoryItem e t c]. simpl. auto.
  - unfold get_items_id, showMemoryItem.
    destruct (useMongoDB st) eqn:U;
      [destruct (Item.findById _ _ _) as [[d|]|]; simpl|];
      try destruct (List.find _ _); apply Same; simpl; auto.
  - unfold get_items_id_edit.
    destruct (Item.findById _ _ _) as [[d|]|]; apply Same; reflexivity.
  - unfold put_items_id.
    destruct (updatedTitle _); [|apply Same; reflexivity].
    destruct (contentText _); [|apply Same; reflexivity].
    destruct (Item.findByIdAndUpdate _ _ _ _ _) as [[[d|] c]|];
      apply Same; reflexivity.
  - unfold delete_items_id.
    destruct (Item.findByIdAndDelete _ _ _) as [[[d|] c]|];
      apply Same; reflexivity.
  - unfold get_feedback. destruct (FeedbackModel.find _ _); apply Same; reflexivity.
  - unfold post_feedback.
    destruct (trimmedMessage _) as [[|c m]|]; try (apply Same; reflexivity).
    destruct (feedbackName _) as [n|]; [|apply Same; reflexivity].
    destruct (FeedbackModel.create _ _ _ _) as [[d coll]|];
      apply Same; reflexivity.
Qed.

(** So the item stays the one its id fetches through any requests that come
    in between, deletes included, as long as the process stays in memory
    mode. *)
Lemma fetch_after_requests (reqs : list (request * env)) (id url : jsstring)
  (e : env) (st : state) (item : MemoryItem.t) :
  useMongoDB st = false ->
  List.find (fun i => eqb (MemoryItem.id i) id) (memoryItems st) = Some item ->
  fst (handle (GET_items_id id url) e
         (run st (map (fun re => Request (fst re) (snd re)) reqs)))
  = Responded (Render 200 (MemoryItem.title item) (items_show (viewOfMemory item))).
Proof.
  revert st. induction reqs as [|[r e1] reqs IH]; intros st Hm Hfind; simpl.
  - unfold get_items_id, showMemoryItem. now rewrite Hm, Hfind.
  - apply IH.
    + destruct (handle_memoryItems r e1 st) as (p & _ & ->). exact Hm.
    + destruct (handle_memoryItems r e1 st) as (p & -> & _).
      clear -Hfind. induction (memoryItems st) as [|a l IHl]; simpl in *;
        [discriminate|].
      destruct (eqb (MemoryItem.id a) id); [exact Hfind | now apply IHl].
Qed.

(** *** Database errors *)

(** The three item handlers written with a [try]/[catch] never let a driver
    or validation error out: the only exception that can leave them is the
    [TypeError] of a field that cannot be turned into text. *)
Lemma fallback_catches (r : request) (e : env) (st : state) (err : exn) :
  hasFallback r = true ->
  fst (handle r e st) = Escaped err -> err = TypeError.
Proof.
  destruct r; simpl; try discriminate; intros _.
  - unfold get_items. destruct (useMongoDB st); [destruct (Item.find _ _)|];
      discriminate.
  - unfold post_items.
    destruct (newTitle _) as [t|]; [|now intros [= <-]].
    destruct (contentText _) as [c|]; [|now intros [= <-]].
    destruct (useMongoDB st); [destruct (Item.create _ _ _ _) as [[d coll]|]|];
      discriminate.
  - unfold get_items_id, showMemoryItem.
    destruct (useMongoDB st);
      [destruct (Item.findById _ _ _) as [[d|]|]; simpl|];
      try destruct (List.find _ _); discriminate.
Qed.

(** In their [catch] the request is served from [memoryItems] and the error
    is printed. *)
Lemma fallback_serves_from_memory (id url : jsstring) (e : env) (st : state)
  (msg : jsstring) :
  useMongoDB st = true -> fault (mongo e) = Some msg ->
  handle GET_items e st
    = (Responded (Render 200 (lit "Items")
                    (items_index (map viewOfMemory (memoryItems st)))),
       print (Error "MongoDB error:" (DriverError msg)) st) /\
  handle (GET_items_id id url) e st
    = showMemoryItem id url (print (Error "MongoDB error:" (DriverError msg)) st).
Proof.
  intros Hu Hf. simpl. unfold get_items, get_items_id, Item.find, Item.findById.
  now rewrite Hu, Hf.
Qed.

(** The other five handlers that call a model have no [try]: when the call
    throws, the error leaves the handler, whatever the flag, and the state is
    as before (nothing is read from the arrays, nothing is printed). *)
Lemma get_items_id_edit_escapes (id url : jsstring) (e : env) (st : state)
  (msg : jsstring) :
  fault (mongo e) = Some msg ->
  handle (GET_items_id_edit id url) e st = (Escaped (DriverError msg), st).
Proof.
  intros Hf. simpl. unfold get_items_id_edit, Item.findById. now rewrite Hf.
Qed.

Lemma put_items_id_escapes (id : jsstring) (body : jsobject) (url : jsstring)
  (e : env) (st : state) (msg : jsstring) :
  fault (mongo e) = Some msg ->
  updatedTitle (field body "title") <> None ->
  contentText (field body "content") <> None ->
  handle (PUT_items_id id body url) e st = (Escaped (DriverError msg), st).
Proof.
  intros Hf Ht Hc. simpl. unfold put_items_id, Item.findByIdAndUpdate.
  destruct (updatedTitle _); [|congruence].
  destruct (contentText _); [|congruence].
  now rewrite Hf.
Qed.

Lemma delete_items_id_escapes (id url : jsstring) (e : env) (st : state)
  (msg : jsstring) :
  fault (mongo e) = Some msg ->
  handle (DELETE_items_id id url) e st = (Escaped (DriverError msg), st).
Proof.
  intros Hf. simpl. unfold delete_items_id, Item.findByIdAndDelete. now rewrite Hf.
Qed.

Lemma get_feedback_escapes (e : env) (st : state) (msg : jsstring) :
  fault (mongo e) = Some msg ->
  handle GET_feedback e st = (Escaped (DriverError msg), st).
Proof.
  intros Hf. simpl. unfold get_feedback, FeedbackModel.find. now rewrite Hf.
Qed.

Lemma post_feedback_escapes (body : jsobject) (e : env) (st : state)
  (msg : jsstring) :
  fault (mongo e) = Some msg ->
  nonblank (field body "message") = true ->
  feedbackName (field body "name") <> None ->
  handle (POST_feedback body) e st = (Escaped (DriverError msg), st).
Proof.
  intros Hf Hm Hn. simpl. unfold post_feedback.
  destruct (trimmedMessage_nonblank _ Hm) as (s & _ & -> & Hne).
  destruct (feedbackName _) as [n|]; [|congruence].
  destruct (trim s) as [|c m] eqn:Et; [congruence|].
  unfold FeedbackModel.create. rewrite <- Et, trim_idem, Et, Hf. reflexivity.
Qed.

(** C1, on the code. With the database unreachable, an item created through
    the fallback of [POST /items] sits in [memoryItems]; the edit form, the
    update and the delete of that item, the feedback page and a feedback
    submission then all let the driver error escape: the request is not
    served from [memoryItems] or [memoryFeedback], and nothing is printed. *)
Theorem C1_handlers_without_fallback_let_the_error_escape :
  let id := lit "1700000000123-k3x9qa" in
  let err := DriverError (lit "connect ECONNREFUSED 127.0.0.1:27017") in
  let st := snd (handle (POST_items [text "title" "Milk"; text "content" "2 l"])
                   envDown mongoMode) in
  map MemoryItem.id (memoryItems st) = [id] /\
  fst (handle (GET_items_id id (lit "/items/1700000000123-k3x9qa")) envDown st)
    = Responded (Render 200 (lit "Milk")
                   (items_show
                      {| ItemView.id := id;
                         ItemView.title := lit "Milk";
                         ItemView.content := Some (lit "2 l");
                         ItemView.createdAtIso := Some (lit "2023-11-14T22:13:20.123Z");
                         ItemView.updatedAtIso := Some (lit "2023-11-14T22:13:20.124Z") |})) /\
  handle (GET_items_id_edit id (lit "/items/1700000000123-k3x9qa/edit")) envDown st
    = (Escaped err, st) /\
  handle (PUT_items_id id [text "title" "Oat milk"; text "content" "3 l"]
            (lit "/items/1700000000123-k3x9qa?_method=PUT")) envDown st
    = (Escaped err, st) /\
  handle (DELETE_items_id id (lit "/items/1700000000123-k3x9qa?_method=DELETE"))
      envDown st
    = (Escaped err, st) /\
  handle GET_feedback envDown st = (Escaped err, st) /\
  handle (POST_feedback [text "name" "Ann"; text "message" "hello"]) envDown st
    = (Escaped err, st).
Proof.
  repeat split.
Qed.

(** Every handler that calls a model without a [try] lets a driver error
    out (unless it throws before the call, or skips the call as
    [POST /feedback] does for a blank message), and the handlers that call
    no model never throw. *)
Lemma without_fallback_escapes (r : request) (e : env) (st : state)
  (msg : jsstring) :
  callsDatabase r = true -> hasFallback r = false ->
  fault (mongo e) = Some msg ->
  handle r e st = (Escaped (DriverError msg), st) \/
  handle r e st = (Escaped TypeError, st) \/
  (exists body, r = POST_feedback body /\
     trimmedMessage (field body "message") = Some []).
Proof.
  intros Hc Hf Hm.
  destruct r; try discriminate; simpl.
  - left. now apply get_items_id_edit_escapes.
  - unfold put_items_id, Item.findByIdAndUpdate. rewrite Hm.
    destruct (updatedTitle _); [|auto].
    destruct (contentText _); auto.
  - left. now apply delete_items_id_escapes.
  - left. now apply get_feedback_escapes.
  - unfold post_feedback.
    destruct (trimmedMessage (field body "message")) as [[|c m]|] eqn:E; [eauto| |auto].
    destruct (feedbackName _); [|auto].
    left. unfold FeedbackModel.create.
    assert (Ht : trim (c :: m) = c :: m).
    { unfold trimmedMessage in E. destruct (toString _) as [s|]; [|discriminate].
      injection E as E. rewrite <- E. apply trim_idem. }
    now rewrite Ht, Hm.
Qed.

Lemma no_model_call_never_throws (r : request) (e : env) (st : state) :
  callsDatabase r = false ->
  exists resp, handle r e st = (Responded resp, st).
Proof.
  destruct r; try discriminate; intros _; simpl; eauto.
Qed.

(** [GET /api/time] forwards the two readings of the runtime. *)
Lemma api_time_response (e : env) (st : state) :
  handle GET_api_time e st
  = (Responded (Json (JsDate.toISOString (newDate e)) (uptime e)), st).
Proof. reflexivity. Qed.

Example api_time_sample :
  fst (handle GET_api_time envUp memoryMode)
  = Responded (Json (lit "2023-11-14T22:13:20.123Z") (5 # 2)).
Proof. reflexivity. Qed.

Lemma C5_feedback_is_append_only_witness :
  let first := {| FeedbackModel._id := lit "65f0c0ffee0123456789abcd";
                  FeedbackModel.name := lit "Ann";
                  FeedbackModel.message := lit "hello";
                  FeedbackModel.createdAt := 1700000000500;
                  FeedbackModel.updatedAt := 1700000000500 |} in
  let st := snd (handle (POST_feedback [text "name" "Ann"; text "message" "hello"])
                   envUp mongoMode) in
  let st' := snd (handle (POST_feedback [text "name" ""; text "message" "again"])
                    envLater st) in
  feedbacks st = [first] /\
  List.length (feedbacks st') = 2%nat /\
  nth_error (feedbacks st') 0 = Some first /\
  In first (feedbacks st').
Proof.
  intros first st st'.
  destruct (@C5_feedback_is_append_only
              (POST_feedback [text "name" ""; text "message" "again"]) envLater st)
    as (_ & Hnth & Hin & _).
  split; [reflexivity|]. split; [reflexivity|]. split.
  - apply (Hnth 0%nat first). reflexivity.
  - apply (Hin first). simpl. auto.
Defined.

(* ================================================================== *)
(** * Further properties of the handlers *)

(** ** The flag and the array over a run *)

Lemma handle_useMongoDB (r : request) (e : env) (st : state) :
  useMongoDB (snd (handle r e st)) = useMongoDB st.
Proof.
  now destruct (handle_memoryItems r e st) as (p & _ & H).
Qed.

(** Only the connection callback turns [useMongoDB] on and nothing turns it
    off: after any run the flag is on exactly when it was on before or the
    connection was made during the run.  No request changes it, a database
    error included. *)
Theorem flag_set_by_connection_only (evs : list event) (st : state) :
  useMongoDB (run st evs) = useMongoDB st || existsb isConnected evs.
Proof.
  revert st. induction evs as [|ev evs IH]; intros st; simpl.
  - now rewrite orb_false_r.
  - rewrite IH. destruct ev as [| msg | r e]; simpl.
    + now rewrite orb_true_r.
    + reflexivity.
    + now rewrite handle_useMongoDB.
Qed.

Lemma handle_memoryItems_pushed (r : request) (e : env) (st : state) :
  memoryItems (snd (handle r e st)) = memoryItems st \/
  exists body t c, r = POST_items body /\ trimmedText t /\
    memoryItems (snd (handle r e st)) = memoryItems st ++ [newMemoryItem e t c].
Proof.
  destruct r; simpl; auto.
  - unfold get_items. destruct (useMongoDB st); [destruct (Item.find _ _)|]; auto.
  - unfold post_items.
    destruct (newTitle (field body "title")) as [t|] eqn:Et; [|auto].
    destruct (contentText _) as [c|]; [|auto].
    apply newTitle_trimmed in Et.
    destruct (useMongoDB st);
      [destruct (Item.create _ _ _ _) as [[d coll]|]|]; simpl; auto;
      right; exists body, t, c; auto.
  - unfold get_items_id, showMemoryItem.
    destruct (useMongoDB st);
      [destruct (Item.findById _ _ _) as [[d|]|]; simpl|];
      try destruct (List.find _ _); auto.
  - unfold get_items_id_edit. destruct (Item.findById _ _ _) as [[d|]|]; auto.
  - unfold put_items_id.
    destruct (updatedTitle _); [|auto]. destruct (contentText _); [|auto].
    destruct (Item.findByIdAndUpdate _ _ _ _ _) as [[[d|] c]|]; auto.
  - unfold delete_items_id.
    destruct (Item.findByIdAndDelete _ _ _) as [[[d|] c]|]; auto.
  - unfold get_feedback. destruct (FeedbackModel.find _ _); auto.
  - unfold post_feedback.
    destruct (trimmedMessage _) as [[|c m]|]; auto.
    destruct (feedbackName _) as [n|]; [|auto].
    destruct (FeedbackModel.create _ _ _ _) as [[d coll]|]; auto.
Qed.

(** [memoryItems] is append-only over any run: the items it holds stay where
    they are, as they are, and each event adds at most one at the end.  In
    particular [PUT /items/:id] and [DELETE /items/:id] never edit or remove
    an item kept in memory. *)
Theorem memoryItems_append_only (evs : list event) (st : state) :
  exists pushed,
    memoryItems (run st evs) = memoryItems st ++ pushed /\
    (List.length pushed <= List.length evs)%nat.
Proof.
  revert st. induction evs as [|ev evs IH]; intros st; simpl.
  - exists []. rewrite app_nil_r. auto.
  - destruct (IH (step st ev)) as (p2 & H2 & L2). rewrite H2.
    assert (H1 : exists p1, memoryItems (step st ev) = memoryItems st ++ p1 /\
                            (List.length p1 <= 1)%nat).
    { destruct ev as [| msg | r e]; simpl.
      - exists []. rewrite app_nil_r. auto.
      - exists []. rewrite app_nil_r. auto.
      - destruct (handle_memoryItems_pushed r e st) as [H | (b & t & c & _ & _ & H)];
          rewrite H.
        + exists []. rewrite app_nil_r. auto.
        + eexists. split; [reflexivity | simpl; auto]. }
    destruct H1 as (p1 & H1 & L1). rewrite H1.
    exists (p1 ++ p2). rewrite app_assoc, length_app. split; [reflexivity | lia].
Qed.

(** ** What is stored *)

Lemma feedbackName_trimmed (v : jsval) (n : jsstring) :
  feedbackName v = Some n -> trimmedText n.
Proof.
  unfold feedbackName, trimmedText. destruct (toString _) as [s|]; [|discriminate].
  intros [= <-]. destruct (trim s) as [|c r] eqn:E; simpl.
  - split; [discriminate | reflexivity].
  - split; [discriminate|]. rewrite <- E. apply trim_idem.
Qed.

Lemma trimmedMessage_trimmed (v : jsval) (c : codeunit) (m : jsstring) :
  trimmedMessage v = Some (c :: m) -> trimmedText (c :: m).
Proof.
  unfold trimmedMessage, trimmedText. destruct (toString _) as [s|]; [|discriminate].
  intros [= E]. split; [discriminate|]. rewrite <- E. apply trim_idem.
Qed.

Lemma updatedTitle_trimmed (v : jsval) (t : jsstring) :
  updatedTitle v = Some (Some t) -> trimmedText t.
Proof.
  unfold updatedTitle, trimmedText. destruct (toString _) as [s|]; [|discriminate].
  destruct (trim s) as [|c r] eqn:E; [discriminate|].
  intros [= <-]. split; [discriminate|]. rewrite <- E. apply trim_idem.
Qed.

(** What a request does to the items collection: nothing, one insertion by
    [Item.create], one update by [findByIdAndUpdate], or one removal. *)
Lemma handle_items (r : request) (e : env) (st : state) :
  items (snd (handle r e st)) = items st \/
  (exists t c d, trimmedText t /\
     Item.create (mongo e) (items st) t (Some c) = Ok (d, items (snd (handle r e st)))) \/
  (exists id t c, (forall t', t = Some t' -> trimmedText t') /\
     items (snd (handle r e st))
       = snd (Item.updateOne id (Item.set (mongo e) t c) (items st))) \/
  (exists id, items (snd (handle r e st)) = snd (Item.deleteOne id (items st))).
Proof.
  destruct r; simpl; auto.
  - unfold get_items. destruct (useMongoDB st); [destruct (Item.find _ _)|]; auto.
  - unfold post_items.
    destruct (newTitle (field body "title")) as [t|] eqn:Et; [|auto].
    destruct (contentText _) as [c|]; [|auto].
    apply newTitle_trimmed in Et.
    destruct (useMongoDB st); [|auto].
    destruct (Item.create _ _ _ _) as [[d coll]|] eqn:E; simpl; auto.
    right; left. exists t, c, d. auto.
  - unfold get_items_id, showMemoryItem.
    destruct (useMongoDB st);
      [destruct (Item.findById _ _ _) as [[d|]|]; simpl|];
      try destruct (List.find _ _); auto.
  - unfold get_items_id_edit. destruct (Item.findById _ _ _) as [[d|]|]; auto.
  - unfold put_items_id.
    destruct (updatedTitle (field body "title")) as [t|] eqn:Et; [|auto].
    destruct (contentText _) as [c|]; [|auto].
    unfold Item.findByIdAndUpdate. destruct (fault (mongo e)); [auto|].
    destruct (Item.updateOne id (Item.set (mongo e) t c) (items st))
      as [[d|] coll] eqn:E; simpl; auto.
    right; right; left. exists id, t, c. rewrite E. split; [|reflexivity].
    intros t' ->. now apply updatedTitle_trimmed in Et.
  - unfold delete_items_id, Item.findByIdAndDelete.
    destruct (fault (mongo e)); [auto|].
    destruct (Item.deleteOne id (items st)) as [[d|] coll] eqn:E; simpl; auto.
    right; right; right. exists id. now rewrite E.
  - unfold get_feedback. destruct (FeedbackModel.find _ _); auto.
  - unfold post_feedback.
    destruct (trimmedMessage _) as [[|c m]|]; auto.
    destruct (feedbackName _) as [n|]; [|auto].
    destruct (FeedbackModel.create _ _ _ _) as [[d coll]|]; auto.
Qed.

(** What a request does to the feedback collection: nothing, or one
    insertion by [FeedbackModel.create]. *)
Lemma handle_feedbacks_created (r : request) (e : env) (st : state) :
  feedbacks (snd (handle r e st)) = feedbacks st \/
  exists n msg d, trimmedText n /\ trimmedText msg /\
    FeedbackModel.create (mongo e) (feedbacks st) (Some n) msg
      = Ok (d, feedbacks (snd (handle r e st))).
Proof.
  destruct r; simpl; auto.
  - unfold get_items. destruct (useMongoDB st); [destruct (Item.find _ _)|]; auto.
  - unfold post_items.
    destruct (newTitle _) as [t|]; [|auto]. destruct (contentText _) as [c|]; [|auto].
    destruct (useMongoDB st); [destruct (Item.create _ _ _ _) as [[d coll]|]|]; auto.
  - unfold get_items_id, showMemoryItem.
    destruct (useMongoDB st);
      [destruct (Item.findById _ _ _) as [[d|]|]; simpl|];
      try destruct (List.find _ _); auto.
  - unfold get_items_id_edit. destruct (Item.findById _ _ _) as [[d|]|]; auto.
  - unfold put_items_id.
    destruct (updatedTitle _); [|auto]. destruct (contentText _); [|auto].
    destruct (Item.findByIdAndUpdate _ _ _ _ _) as [[[d|] c]|]; auto.
  - unfold delete_items_id.
    destruct (Item.findByIdAndDelete _ _ _) as [[[d|] c]|]; auto.
  - unfold get_feedback. destruct (FeedbackModel.find _ _); auto.
  - unfold post_feedback.
    destruct (trimmedMessage (field body "message")) as [[|c m]|] eqn:Em; auto.
    destruct (feedbackName (field body "name")) as [n|] eqn:En; [|auto].
    destruct (FeedbackModel.create _ _ _ _) as [[d coll]|] eqn:E; auto.
    right. exists n, (c :: m), d.
    apply feedbackName_trimmed in En. apply trimmedMessage_trimmed in Em. auto.
Qed.

Lemma updateOne_each (id : jsstring) (f : Item.doc -> Item.doc) (coll : list Item.doc) :
  Forall2 (fun d d' => d' = d \/ d' = f d) coll (snd (Item.updateOne id f coll)).
Proof.
  induction coll as [|x r IH]; simpl; [constructor|].
  destruct (Item.hasId id x); simpl.
  - constructor; [auto|]. clear. induction r; constructor; auto.
  - destruct (Item.updateOne id f r) as [o r']. simpl in *.
    constructor; auto.
Qed.

Lemma deleteOne_split (id : jsstring) (coll : list Item.doc) :
  snd (Item.deleteOne id coll) = coll \/
  exists l1 d l2, coll = l1 ++ d :: l2 /\ snd (Item.deleteOne id coll) = l1 ++ l2 /\
    Item._id d = id /\ fst (Item.deleteOne id coll) = Some d /\
    List.find (Item.hasId id) l1 = None.
Proof.
  induction coll as [|x r IH]; simpl; [auto|].
  destruct (Item.hasId id x) eqn:E; simpl.
  - right. exists [], x, r. apply eqb_eq in E. auto.
  - destruct (Item.deleteOne id r) as [o r']. simpl in *.
    destruct IH as [-> | (l1 & d & l2 & -> & -> & Hid & Ho & Hf)]; [auto|].
    right. exists (x :: l1), d, l2. simpl. rewrite E. auto.
Qed.

Lemma set_keeps_id (m : driver) (t : option jsstring) (c : jsstring) (d : Item.doc) :
  Item._id (Item.set m t c d) = Item._id d.
Proof. reflexivity. Qed.

Lemma updateOne_ids (id : jsstring) (m : driver) (t : option jsstring)
  (c : jsstring) (coll : list Item.doc) :
  map Item._id (snd (Item.updateOne id (Item.set m t c) coll)) = map Item._id coll.
Proof.
  pose proof (updateOne_each id (Item.set m t c) coll) as H.
  induction H as [|d d' l l' [-> | ->] _ IH]; simpl; congruence.
Qed.

(** *** Titles *)

Lemma handle_titlesOk (r : request) (e : env) (st : state) :
  titlesOk st -> titlesOk (snd (handle r e st)).
Proof.
  intros [Hm Hi]. split.
  - destruct (handle_memoryItems_pushed r e st) as [-> | (b & t & c & _ & Ht & ->)];
      [exact Hm|].
    apply Forall_app. split; [exact Hm|]. constructor; [exact Ht | constructor].
  - destruct (handle_items r e st)
      as [-> | [(t & c & d & Ht & E) | [(id & t & c & Ht & ->) | (id & ->)]]].
    + exact Hi.
    + apply Item_create_Ok in E. destruct E as (-> & Htitle & _).
      apply Forall_app. split; [exact Hi|]. constructor; [|constructor].
      rewrite Htitle. destruct Ht as [Hne Htr]. rewrite Htr. now split.
    + pose proof (updateOne_each id (Item.set (mongo e) t c) (items st)) as H.
      induction H as [|d d' l l' Hd _ IH]; [constructor|].
      inversion Hi as [|? ? Hd0 Hl]; subst. constructor; [|now apply IH].
      destruct Hd as [-> | ->]; [exact Hd0|].
      simpl. destruct t as [t'|]; [|exact Hd0].
      destruct (Ht t' eq_refl) as [Hne Htr]. rewrite Htr. now split.
    + destruct (deleteOne_split id (items st))
        as [-> | (l1 & d & l2 & E & -> & _)]; [exact Hi|].
      rewrite E in Hi. apply Forall_app in Hi. destruct Hi as [H1 H2].
      inversion H2; subst. apply Forall_app. now split.
Qed.

(** Every title the application stores is a non-empty trimmed text: from
    the start of the process and over any run, whatever the requests carry,
    no item of [memoryItems] and no document of the items collection has an
    empty title or a title with white space at either end. *)
Theorem stored_titles_nonempty_trimmed (uri node_env : jsval) (evs : list event) :
  titlesOk (run (start uri node_env) evs).
Proof.
  assert (Hrun : forall evs st, titlesOk st -> titlesOk (run st evs)).
  { clear evs. induction evs as [|ev evs IH]; intros st H; simpl; [exact H|].
    apply IH. destruct ev as [| msg | r e]; simpl; try exact H.
    now apply handle_titlesOk. }
  apply Hrun. split; constructor.
Qed.

(** *** Feedback entries *)

Lemma handle_feedbacksOk (r : request) (e : env) (st : state) :
  feedbacksOk st -> feedbacksOk (snd (handle r e st)).
Proof.
  unfold feedbacksOk. intros H.
  destruct (handle_feedbacks_created r e st)
    as [-> | (n & msg & d & [Hn1 Hn2] & [Hm1 Hm2] & E)]; [exact H|].
  apply Feedback_create_Ok in E. destruct E as (-> & Hname & Hmsg & _).
  apply Forall_app. split; [exact H|]. constructor; [|constructor].
  rewrite Hname, Hmsg, Hn2, Hm2. repeat split; assumption.
Qed.

(** Every feedback entry the application stores has a non-empty trimmed
    message and a non-empty trimmed name, from the start of the process and
    over any run. *)
Theorem stored_feedback_nonempty_trimmed (uri node_env : jsval) (evs : list event) :
  feedbacksOk (run (start uri node_env) evs).
Proof.
  assert (Hrun : forall evs st, feedbacksOk st -> feedbacksOk (run st evs)).
  { clear evs. induction evs as [|ev evs IH]; intros st H; simpl; [exact H|].
    apply IH. destruct ev as [| msg | r e]; simpl; try exact H.
    now apply handle_feedbacksOk. }
  apply Hrun. constructor.
Qed.

(** *** Document ids *)

Lemma existsb_hasId_false (id : jsstring) (coll : list Item.doc) :
  existsb (Item.hasId id) coll = false -> ~ In id (map Item._id coll).
Proof.
  induction coll as [|x r IH]; simpl; [tauto|].
  intros H. apply orb_false_iff in H. destruct H as [Hx Hr].
  intros [E | Hin]; [|now apply IH].
  unfold Item.hasId in Hx. apply eqb_neq in Hx. congruence.
Qed.

Lemma existsb_feedback_hasId_false (id : jsstring) (coll : list FeedbackModel.doc) :
  existsb (FeedbackModel.hasId id) coll = false ->
  ~ In id (map FeedbackModel._id coll).
Proof.
  induction coll as [|x r IH]; simpl; [tauto|].
  intros H. apply orb_false_iff in H. destruct H as [Hx Hr].
  intros [E | Hin]; [|now apply IH].
  unfold FeedbackModel.hasId in Hx. apply eqb_neq in Hx. congruence.
Qed.

Lemma Item_create_fresh (m : driver) (coll : list Item.doc) (t : jsstring)
  (c : option jsstring) (d : Item.doc) (coll' : list Item.doc) :
  Item.create m coll t c = Ok (d, coll') -> ~ In (Item._id d) (map Item._id coll).
Proof.
  unfold Item.create. destruct (trim t); [discriminate|].
  destruct (fault m); [discriminate|].
  destruct (existsb _ coll) eqn:E; [discriminate|].
  intros [= <- _]. simpl. now apply existsb_hasId_false.
Qed.

Lemma Feedback_create_fresh (m : driver) (coll : list FeedbackModel.doc)
  (n : option jsstring) (msg : jsstring) (d : FeedbackModel.doc)
  (coll' : list FeedbackModel.doc) :
  FeedbackModel.create m coll n msg = Ok (d, coll') ->
  ~ In (FeedbackModel._id d) (map FeedbackModel._id coll).
Proof.
  unfold FeedbackModel.create. destruct (trim msg); [discriminate|].
  destruct (fault m); [discriminate|].
  destruct (existsb _ coll) eqn:E; [discriminate|].
  intros [= <- _]. simpl. now apply existsb_feedback_hasId_false.
Qed.

Lemma NoDup_snoc {A : Type} (l : list A) (x : A) :
  NoDup l -> ~ In x l -> NoDup (l ++ [x]).
Proof.
  intros Hl Hx. induction l as [|a l IH]; simpl.
  - constructor; [tauto | constructor].
  - inversion Hl as [|? ? Ha Hl']; subst. constructor.
    + rewrite in_app_iff. simpl. intros [H | [H | []]]; [contradiction|].
      subst. apply Hx. now left.
    + apply IH; [exact Hl'|]. intros H. apply Hx. now right.
Qed.

Lemma handle_idsDistinct (r : request) (e : env) (st : state) :
  idsDistinct st -> idsDistinct (snd (handle r e st)).
Proof.
  intros [Hi Hf]. split.
  - destruct (handle_items r e st)
      as [-> | [(t & c & d & _ & E) | [(id & t & c & _ & ->) | (id & ->)]]].
    + exact Hi.
    + pose proof (Item_create_fresh _ _ _ _ E) as Hfresh.
      apply Item_create_Ok in E. destruct E as (-> & _).
      rewrite map_app. simpl. now apply NoDup_snoc.
    + now rewrite updateOne_ids.
    + destruct (deleteOne_split id (items st))
        as [-> | (l1 & d & l2 & E & -> & _)]; [exact Hi|].
      rewrite E, map_app in Hi. simpl in Hi. rewrite map_app.
      now apply NoDup_remove_1 in Hi.
  - destruct (handle_feedbacks_created r e st)
      as [-> | (n & msg & d & _ & _ & E)]; [exact Hf|].
    pose proof (Feedback_create_fresh _ _ _ _ E) as Hfresh.
    apply Feedback_create_Ok in E. destruct E as (-> & _).
    rewrite map_app. simpl. now apply NoDup_snoc.
Qed.

Lemma run_idsDistinct (evs : list event) (st : state) :
  idsDistinct st -> idsDistinct (run st evs).
Proof.
  revert st. induction evs as [|ev evs IH]; intros st H; simpl; [exact H|].
  apply IH. destruct ev as [| msg | r e]; simpl; try exact H.
  now apply handle_idsDistinct.
Qed.

(** From the start of the process and over any run, the ids of each
    collection are pairwise distinct. *)
Lemma document_ids_distinct (uri node_env : jsval) (evs : list event) :
  idsDistinct (run (start uri node_env) evs).
Proof.
  apply run_idsDistinct. split; constructor.
Qed.

(** ** Creating an item *)

Lemma find_fresh (id : jsstring) (coll : list Item.doc) :
  existsb (Item.hasId id) coll = false -> List.find (Item.hasId id) coll = None.
Proof.
  induction coll as [|x r IH]; simpl; [reflexivity|].
  intros H. apply orb_false_iff in H. destruct H as [-> Hr]. now apply IH.
Qed.

(** A [POST /items] whose fields can be turned into text never fails: the
    item goes to exactly one of the two stores, the collection or (flag off,
    or the call having thrown) [memoryItems], with the submitted title and
    content, and the response is the redirect to the page of that item. *)
Theorem post_items_stores_in_one_place (body : jsobject) (e : env) (st : state)
  (t c : jsstring) :
  newTitle (field body "title") = Some t ->
  contentText (field body "content") = Some c ->
  exists loc,
    fst (handle (POST_items body) e st) = Responded (Redirect loc) /\
    ((exists d,
        items (snd (handle (POST_items body) e st)) = items st ++ [d] /\
        memoryItems (snd (handle (POST_items body) e st)) = memoryItems st /\
        loc = lit "/items/" ++ Item._id d /\
        Item.title d = t /\ Item.content d = c) \/
     (exists i,
        memoryItems (snd (handle (POST_items body) e st)) = memoryItems st ++ [i] /\
        items (snd (handle (POST_items body) e st)) = items st /\
        loc = lit "/items/" ++ MemoryItem.id i /\
        MemoryItem.title i = t /\ MemoryItem.content i = c)).
Proof.
  intros Ht Hc. simpl. unfold post_items. rewrite Ht, Hc.
  apply newTitle_trimmed in Ht. destruct Ht as [_ Htr].
  destruct (useMongoDB st).
  - destruct (Item.create (mongo e) (items st) t (Some c)) as [[d coll]|err] eqn:E.
    + apply Item_create_Ok in E. destruct E as (-> & Htitle & Hcontent & _).
      eexists. split; [reflexivity|]. left. exists d. simpl.
      rewrite Htitle, Htr. auto.
    + eexists. split; [reflexivity|]. right.
      exists (newMemoryItem e t c). simpl. auto.
  - eexists. split; [reflexivity|]. right.
    exists (newMemoryItem e t c). simpl. auto.
Qed.

Lemma post_items_stores_in_one_place_witness :
  newTitle (field [text "title" " Milk "; text "content" "2 l"] "title")
    = Some (lit "Milk") /\
  contentText (field [text "title" " Milk "; text "content" "2 l"] "content")
    = Some (lit "2 l") /\
  exists loc,
    fst (handle (POST_items [text "title" " Milk "; text "content" "2 l"])
           envDown mongoMode) = Responded (Redirect loc) /\
    ((exists d,
        items (snd (handle (POST_items [text "title" " Milk "; text "content" "2 l"])
                      envDown mongoMode)) = items mongoMode ++ [d] /\
        memoryItems (snd (handle (POST_items [text "title" " Milk "; text "content" "2 l"])
                            envDown mongoMode)) = memoryItems mongoMode /\
        loc = lit "/items/" ++ Item._id d /\
        Item.title d = lit "Milk" /\ Item.content d = lit "2 l") \/
     (exists i,
        memoryItems (snd (handle (POST_items [text "title" " Milk "; text "content" "2 l"])
                            envDown mongoMode)) = memoryItems mongoMode ++ [i] /\
        items (snd (handle (POST_items [text "title" " Milk "; text "content" "2 l"])
                      envDown mongoMode)) = items mongoMode /\
        loc = lit "/items/" ++ MemoryItem.id i /\
        MemoryItem.title i = lit "Milk" /\ MemoryItem.content i = lit "2 l")).
Proof.
  split; [reflexivity|]. split; [reflexivity|].
  apply (@post_items_stores_in_one_place
           [text "title" " Milk "; text "content" "2 l"] envDown mongoMode
           (lit "Milk") (lit "2 l")); reflexivity.
Defined.

(** Create then fetch, through the database: with the flag on and the calls
    succeeding, a [POST /items] redirects to [/items/<the new _id>] and the
    [GET] of that id renders the document just created, with the submitted
    title and content. *)
Theorem create_then_fetch_in_database (body : jsobject) (e e' : env)
  (url : jsstring) (st : state) (t c : jsstring) :
  useMongoDB st = true ->
  fault (mongo e) = None -> fault (mongo e') = None ->
  existsb (Item.hasId (objectId (mongo e))) (items st) = false ->
  newTitle (field body "title") = Some t ->
  contentText (field body "content") = Some c ->
  fst (handle (POST_items body) e st)
    = Responded (Redirect (lit "/items/" ++ objectId (mongo e))) /\
  exists item,
    fst (handle (GET_items_id (objectId (mongo e)) url) e'
           (snd (handle (POST_items body) e st)))
      = Responded (Render 200 t (items_show item)) /\
    ItemView.id item = objectId (mongo e) /\
    ItemView.title item = t /\
    ItemView.content item = Some c.
Proof.
  intros Hu Hf Hf' Hid Ht Hc. simpl. unfold post_items. rewrite Ht, Hc, Hu.
  pose proof (newTitle_trimmed _ Ht) as [Hne Htr].
  destruct (@Item_create_succeeds (mongo e) (items st) t c) as [d Hd]; auto.
  { now rewrite Htr. }
  rewrite Hd. pose proof (Item_create_Ok _ _ _ _ Hd) as (_ & Htitle & Hcontent & Hoid & _).
  simpl. rewrite Hoid. split; [reflexivity|].
  unfold get_items_id. simpl. rewrite Hu. unfold Item.findById. rewrite Hf'.
  rewrite find_snoc, (find_fresh _ _ Hid).
  unfold Item.hasId at 1. rewrite Hoid, eqb_refl.
  exists (viewOfDoc d). simpl. rewrite Htitle, Htr, Hcontent, Hoid. auto.
Qed.

Lemma create_then_fetch_in_database_witness :
  useMongoDB mongoMode = true /\
  fault (mongo envUp) = None /\ fault (mongo envLater) = None /\
  existsb (Item.hasId (objectId (mongo envUp))) (items mongoMode) = false /\
  newTitle (field [text "title" " Milk "; text "content" "2 l"] "title")
    = Some (lit "Milk") /\
  contentText (field [text "title" " Milk "; text "content" "2 l"] "content")
    = Some (lit "2 l") /\
  fst (handle (POST_items [text "title" " Milk "; text "content" "2 l"]) envUp mongoMode)
    = Responded (Redirect (lit "/items/" ++ objectId (mongo envUp))) /\
  exists item,
    fst (handle (GET_items_id (objectId (mongo envUp))
                   (lit "/items/65f0c0ffee0123456789abcd")) envLater
           (snd (handle (POST_items [text "title" " Milk "; text "content" "2 l"])
                   envUp mongoMode)))
      = Responded (Render 200 (lit "Milk") (items_show item)) /\
    ItemView.id item = objectId (mongo envUp) /\
    ItemView.title item = lit "Milk" /\
    ItemView.content item = Some (lit "2 l").
Proof.
  do 6 (split; [reflexivity|]).
  apply (@create_then_fetch_in_database
           [text "title" " Milk "; text "content" "2 l"] envUp envLater
           (lit "/items/65f0c0ffee0123456789abcd") mongoMode (lit "Milk") (lit "2 l"));
    reflexivity.
Defined.

(** Create then fetch, through the fallback: with the flag on and the
    database failing, a [POST /items] prints the error, keeps the item in
    [memoryItems] under the generated id (an id no item there has) and
    redirects to it; while the database keeps failing, the [GET] of that id
    prints the error and renders that item from memory. *)
Theorem create_then_fetch_through_fallback (body : jsobject) (e e' : env)
  (url : jsstring) (st : state) (t c msg msg' : jsstring) :
  useMongoDB st = true ->
  fault (mongo e) = Some msg -> fault (mongo e') = Some msg' ->
  ~ stored Memory st (generatedId e) ->
  newTitle (field body "title") = Some t ->
  contentText (field body "content") = Some c ->
  handle (POST_items body) e st
    = (Responded (Redirect (lit "/items/" ++ generatedId e)),
       set_memoryItems (memoryItems st ++ [newMemoryItem e t c])
         (print (Error "MongoDB error:" (DriverError msg)) st)) /\
  handle (GET_items_id (generatedId e) url) e' (snd (handle (POST_items body) e st))
    = (Responded (Render 200 t (items_show (viewOfMemory (newMemoryItem e t c)))),
       print (Error "MongoDB error:" (DriverError msg'))
         (snd (handle (POST_items body) e st))).
Proof.
  intros Hu Hf Hf' Hfresh Ht Hc.
  assert (Hpost : handle (POST_items body) e st
    = (Responded (Redirect (lit "/items/" ++ generatedId e)),
       set_memoryItems (memoryItems st ++ [newMemoryItem e t c])
         (print (Error "MongoDB error:" (DriverError msg)) st))).
  { simpl. unfold post_items. rewrite Ht, Hc, Hu.
    pose proof (newTitle_trimmed _ Ht) as [Hne Htr].
    unfold Item.create. rewrite Htr, Hf. destruct t; [congruence | reflexivity]. }
  split; [exact Hpost|]. rewrite Hpost.
  change (handle (GET_items_id (generatedId e) url) e' ?s)
    with (get_items_id (generatedId e) url e' s).
  unfold get_items_id. simpl snd.
  change (useMongoDB (set_memoryItems ?l (print ?x st))) with (useMongoDB st).
  rewrite Hu. unfold Item.findById. rewrite Hf'. unfold showMemoryItem.
  change (memoryItems (print ?x (set_memoryItems ?l ?s))) with l.
  rewrite find_snoc. apply find_memory_None in Hfresh. rewrite Hfresh.
  change (MemoryItem.id (newMemoryItem e t c)) with (generatedId e).
  rewrite eqb_refl. reflexivity.
Qed.

Lemma create_then_fetch_through_fallback_witness :
  useMongoDB mongoMode = true /\
  fault (mongo envDown) = Some (lit "connect ECONNREFUSED 127.0.0.1:27017") /\
  ~ stored Memory mongoMode (generatedId envDown) /\
  newTitle (field [text "title" " Milk "; text "content" "2 l"] "title")
    = Some (lit "Milk") /\
  contentText (field [text "title" " Milk "; text "content" "2 l"] "content")
    = Some (lit "2 l") /\
  fst (handle (GET_items_id (generatedId envDown) (lit "/items/1700000000123-k3x9qa"))
         envDown
         (snd (handle (POST_items [text "title" " Milk "; text "content" "2 l"])
                 envDown mongoMode)))
  = Responded (Render 200 (lit "Milk")
                 (items_show (viewOfMemory (newMemoryItem envDown (lit "Milk") (lit "2 l"))))).
Proof.
  assert (H : ~ stored Memory mongoMode (generatedId envDown)).
  { simpl. intros [i [[] _]]. }
  split; [reflexivity|]. split; [reflexivity|]. split; [exact H|].
  split; [reflexivity|]. split; [reflexivity|].
  destruct (@create_then_fetch_through_fallback
              [text "title" " Milk "; text "content" "2 l"] envDown envDown
              (lit "/items/1700000000123-k3x9qa") mongoMode (lit "Milk") (lit "2 l")
              (lit "connect ECONNREFUSED 127.0.0.1:27017")
              (lit "connect ECONNREFUSED 127.0.0.1:27017")
              eq_refl eq_refl eq_refl H eq_refl eq_refl) as [_ Hget].
  now rewrite Hget.
Defined.

(** ** Updating and deleting *)

Lemma deleteOne_missing (id : jsstring) (coll : list Item.doc) :
  List.find (Item.hasId id) coll = None -> Item.deleteOne id coll = (None, coll).
Proof.
  induction coll as [|x r IH]; simpl; [reflexivity|].
  destruct (Item.hasId id x); [discriminate|].
  intros H. now rewrite (IH H).
Qed.

(** An id the collection does not know is answered by the 404 page on the
    edit form, on the update and on the delete, and the state is left as it
    was: the update creates no document. *)
Theorem unknown_id_is_404_and_changes_nothing (id url : jsstring) (e : env)
  (st : state) :
  fault (mongo e) = None ->
  List.find (Item.hasId id) (items st) = None ->
  handle (GET_items_id_edit id url) e st = (Responded (render404 url), st) /\
  handle (DELETE_items_id id url) e st = (Responded (render404 url), st) /\
  (forall body,
     updatedTitle (field body "title") <> None ->
     contentText (field body "content") <> None ->
     handle (PUT_items_id id body url) e st = (Responded (render404 url), st)).
Proof.
  intros Hf Hnone. simpl. repeat split.
  - unfold get_items_id_edit, Item.findById. now rewrite Hf, Hnone.
  - unfold delete_items_id, Item.findByIdAndDelete.
    now rewrite Hf, (deleteOne_missing _ _ Hnone).
  - intros body Ht Hc. unfold put_items_id, Item.findByIdAndUpdate.
    destruct (updatedTitle _) as [t|]; [|congruence].
    destruct (contentText _) as [c|]; [|congruence].
    now rewrite Hf, (updateOne_missing _ _ _ Hnone).
Qed.

Lemma unknown_id_is_404_and_changes_nothing_witness :
  fault (mongo envUp) = None /\
  List.find (Item.hasId (lit "65f0c0ffee0123456789abcf"))
    (items (snd (handle (POST_items [text "title" "Milk"]) envUp mongoMode))) = None /\
  handle (DELETE_items_id (lit "65f0c0ffee0123456789abcf")
            (lit "/items/65f0c0ffee0123456789abcf?_method=DELETE")) envUp
    (snd (handle (POST_items [text "title" "Milk"]) envUp mongoMode))
  = (Responded (render404 (lit "/items/65f0c0ffee0123456789abcf?_method=DELETE")),
     snd (handle (POST_items [text "title" "Milk"]) envUp mongoMode)).
Proof.
  split; [reflexivity|]. split; [reflexivity|].
  exact (proj1 (proj2 (@unknown_id_is_404_and_changes_nothing
                         (lit "65f0c0ffee0123456789abcf")
                         (lit "/items/65f0c0ffee0123456789abcf?_method=DELETE")
                         envUp
                         (snd (handle (POST_items [text "title" "Milk"]) envUp mongoMode))
                         eq_refl eq_refl))).
Defined.

Lemma deleteOne_found (id : jsstring) (coll : list Item.doc) (d : Item.doc) :
  NoDup (map Item._id coll) ->
  List.find (Item.hasId id) coll = Some d ->
  exists coll',
    Item.deleteOne id coll = (Some d, coll') /\
    List.find (Item.hasId id) coll' = None /\
    (forall id', id' <> id ->
       List.find (Item.hasId id') coll' = List.find (Item.hasId id') coll) /\
    S (List.length coll') = List.length coll.
Proof.
  induction coll as [|x r IH]; simpl; [discriminate|].
  intros Hnd Hfind. inversion Hnd as [|? ? Hx Hr]; subst.
  destruct (Item.hasId id x) eqn:E.
  - injection Hfind as <-. exists r. repeat split.
    + destruct (List.find (Item.hasId id) r) as [y|] eqn:Ey; [|reflexivity].
      apply find_some in Ey. destruct Ey as [Hin Hy].
      unfold Item.hasId in *. apply eqb_eq in E. apply eqb_eq in Hy.
      exfalso. apply Hx. rewrite E, <- Hy. now apply in_map.
    + intros id' Hne. unfold Item.hasId in *. apply eqb_eq in E.
      assert (N : eqb (Item._id x) id' = false) by (apply eqb_neq; congruence).
      now rewrite N.
  - destruct (IH Hr Hfind) as (coll' & -> & Hnone & Hframe & Hlen).
    exists (x :: coll'). simpl. rewrite E. repeat split; auto.
    intros id' Hne. destruct (Item.hasId id' x); auto.
Qed.

(** Delete then fetch: with the flag on and the calls succeeding, the
    [DELETE] of an item of the collection (whose ids are distinct) redirects
    to the list, removes that one document and leaves every other as it
    was, and the [GET] of the id then gives the 404 page. *)
Theorem delete_then_fetch_is_404 (id url url' : jsstring) (e e' : env)
  (st : state) (d : Item.doc) :
  useMongoDB st = true ->
  fault (mongo e) = None -> fault (mongo e') = None ->
  NoDup (map Item._id (items st)) ->
  List.find (Item.hasId id) (items st) = Some d ->
  fst (handle (DELETE_items_id id url) e st) = Responded (Redirect (lit "/items")) /\
  fst (handle (GET_items_id id url') e' (snd (handle (DELETE_items_id id url) e st)))
    = Responded (render404 url') /\
  S (List.length (items (snd (handle (DELETE_items_id id url) e st))))
    = List.length (items st) /\
  (forall id', id' <> id ->
     List.find (Item.hasId id') (items (snd (handle (DELETE_items_id id url) e st)))
     = List.find (Item.hasId id') (items st)).
Proof.
  intros Hu Hf Hf' Hnd Hfind. simpl.
  unfold delete_items_id, Item.findByIdAndDelete. rewrite Hf.
  destruct (@deleteOne_found id (items st) d Hnd Hfind) as (coll' & -> & Hnone & Hframe & Hlen).
  simpl. repeat split; auto.
  unfold get_items_id. simpl. rewrite Hu. unfold Item.findById.
  now rewrite Hf', Hnone.
Qed.

Lemma delete_then_fetch_is_404_witness :
  let id := lit "65f0c0ffee0123456789abcd" in
  let st := run mongoMode
              [Request (POST_items [text "title" "Milk"]) envUp;
               Request (POST_items [text "title" "Bread"]) envLater] in
  let st' := snd (handle (DELETE_items_id id (lit "/items/65f0c0ffee0123456789abcd"))
                    envUp st) in
  map Item.title (items st) = [lit "Milk"; lit "Bread"] /\
  map Item.title (items st') = [lit "Bread"] /\
  fst (handle (GET_items_id id (lit "/items/65f0c0ffee0123456789abcd")) envLater st')
    = Responded (render404 (lit "/items/65f0c0ffee0123456789abcd")).
Proof.
  intros id st st'.
  split; [reflexivity|]. split; [reflexivity|].
  assert (Hnd : NoDup (map Item._id (items st))).
  { apply (run_idsDistinct
             [Request (POST_items [text "title" "Milk"]) envUp;
              Request (POST_items [text "title" "Bread"]) envLater] (st := mongoMode)).
    split; constructor. }
  exact (proj1 (proj2 (@delete_then_fetch_is_404 id
                         (lit "/items/65f0c0ffee0123456789abcd")
                         (lit "/items/65f0c0ffee0123456789abcd")
                         envUp envLater st
                         {| Item._id := id; Item.title := lit "Milk";
                            Item.content := [];
                            Item.createdAt := 1700000000500;
                            Item.updatedAt := 1700000000500 |}
                         eq_refl eq_refl eq_refl Hnd eq_refl))).
Defined.

(** A [PUT /items/:id] with a title that is not blank, on an item of the
    collection (the call succeeding), stores the trimmed title and the
    submitted content, and neither adds nor removes a document nor changes
    an id. *)
Theorem put_stores_trimmed_title (id : jsstring) (body : jsobject)
  (url : jsstring) (e : env) (st : state) (d : Item.doc) (s c : jsstring) :
  field body "title" = JStr s -> all_ws s = false ->
  contentText (field body "content") = Some c ->
  fault (mongo e) = None ->
  List.find (Item.hasId id) (items st) = Some d ->
  exists d',
    fst (handle (PUT_items_id id body url) e st)
      = Responded (Redirect (lit "/items/" ++ id)) /\
    List.find (Item.hasId id) (items (snd (handle (PUT_items_id id body url) e st)))
      = Some d' /\
    Item.title d' = trim s /\
    Item.content d' = c /\
    Item.createdAt d' = Item.createdAt d /\
    map Item._id (items (snd (handle (PUT_items_id id body url) e st)))
      = map Item._id (items st).
Proof.
  intros Hs Hws Hc Hf Hd. simpl. unfold put_items_id. rewrite Hs, Hc.
  assert (Ht : updatedTitle (JStr s) = Some (Some (trim s))).
  { unfold updatedTitle, orLit. simpl.
    pose proof (trim_not_nil _ Hws) as Hne.
    destruct s as [|a s']; [discriminate Hws|]. simpl toString. cbv iota beta.
    destruct (trim (a :: s')); [congruence | reflexivity]. }
  rewrite Ht. unfold Item.findByIdAndUpdate. rewrite Hf.
  destruct (@updateOne_found id (Item.set (mongo e) (Some (trim s)) c) (items st) d)
    as (coll' & E & Hfind & _ & Hids); [reflexivity | exact Hd |].
  rewrite E. exists (Item.set (mongo e) (Some (trim s)) c d). simpl.
  apply find_some in Hd. destruct Hd as [_ Hid]. apply eqb_eq in Hid.
  rewrite Hid, trim_idem. repeat split; auto.
Qed.

Lemma put_stores_trimmed_title_witness :
  let id := lit "65f0c0ffee0123456789abcd" in
  let body := [text "title" " Oat milk "; text "content" "3 l"] in
  let st := snd (handle (POST_items [text "title" "Milk"; text "content" "2 l"])
                   envUp mongoMode) in
  exists d',
    List.find (Item.hasId id)
      (items (snd (handle (PUT_items_id id body (lit "/items/65f0c0ffee0123456789abcd"))
                     envLater st))) = Some d' /\
    Item.title d' = lit "Oat milk" /\
    Item.content d' = lit "3 l".
Proof.
  intros id body st.
  destruct (@put_stores_trimmed_title id body (lit "/items/65f0c0ffee0123456789abcd")
              envLater st
              {| Item._id := id; Item.title := lit "Milk"; Item.content := lit "2 l";
                 Item.createdAt := 1700000000500; Item.updatedAt := 1700000000500 |}
              (lit " Oat milk ") (lit "3 l")
              eq_refl eq_refl eq_refl eq_refl eq_refl)
    as (d' & _ & Hfind & Ht & Hc & _).
  exists d'. repeat split; assumption.
Defined.

(** ** The lists *)

Lemma insertDesc_perm {A : Type} (key : A -> Z) (x : A) (l : list A) :
  Permutation (insertDesc key x l) (x :: l).
Proof.
  induction l as [|y r IH]; simpl; [reflexivity|].
  destruct (key y <? key x); [reflexivity|].
  rewrite IH. apply perm_swap.
Qed.

Lemma sortDesc_perm {A : Type} (key : A -> Z) (l : list A) :
  Permutation (sortDesc key l) l.
Proof.
  induction l as [|x r IH]; simpl; [reflexivity|].
  unfold sortDesc in *. simpl. rewrite insertDesc_perm. now constructor.
Qed.

Lemma insertDesc_sorted {A : Type} (key : A -> Z) (x : A) (l : list A) :
  newestFirst key l -> newestFirst key (insertDesc key x l).
Proof.
  unfold newestFirst. induction l as [|y r IH]; simpl; intros H.
  - constructor; constructor.
  - inversion H as [|? ? Hr Hy]; subst.
    destruct (key y <? key x) eqn:E.
    + apply Z.ltb_lt in E. constructor; [exact H|].
      constructor; [lia|].
      eapply Forall_impl; [|exact Hy]. simpl. intros b Hb. lia.
    + apply Z.ltb_ge in E. constructor; [now apply IH|].
      eapply Permutation_Forall; [symmetry; apply insertDesc_perm|].
      constructor; [exact E | exact Hy].
Qed.

Lemma sortDesc_sorted {A : Type} (key : A -> Z) (l : list A) :
  newestFirst key (sortDesc key l).
Proof.
  induction l as [|x r IH]; simpl; [constructor|].
  now apply insertDesc_sorted.
Qed.

(** With the flag on and the call succeeding, the items page lists every
    document of the collection exactly once, the most recently updated
    first, and changes nothing. *)
Theorem items_page_lists_collection_newest_first (e : env) (st : state) :
  useMongoDB st = true -> fault (mongo e) = None ->
  exists list,
    handle GET_items e st
      = (Responded (Render 200 (lit "Items") (items_index (map rowOfDoc list))), st) /\
    Permutation list (items st) /\
    newestFirst Item.updatedAt list.
Proof.
  intros Hu Hf. exists (sortDesc Item.updatedAt (items st)).
  simpl. unfold get_items, Item.find. rewrite Hu, Hf.
  split; [reflexivity|]. split; [apply sortDesc_perm | apply sortDesc_sorted].
Qed.

Lemma items_page_lists_collection_newest_first_witness :
  let st := run mongoMode
              [Request (POST_items [text "title" "Milk"]) envUp;
               Request (POST_items [text "title" "Bread"]) envLater] in
  map Item.title (items st) = [lit "Milk"; lit "Bread"] /\
  exists list,
    handle GET_items envUp st
      = (Responded (Render 200 (lit "Items") (items_index (map rowOfDoc list))), st) /\
    Permutation list (items st) /\
    newestFirst Item.updatedAt list.
Proof.
  intros st. split; [reflexivity|].
  apply (@items_page_lists_collection_newest_first envUp st); reflexivity.
Defined.

Example items_page_order :
  let st := run mongoMode
              [Request (POST_items [text "title" "Milk"]) envUp;
               Request (POST_items [text "title" "Bread"]) envLater] in
  exists rows,
    fst (handle GET_items envUp st)
      = Responded (Render 200 (lit "Items") (items_index rows)) /\
    map ItemView.title rows = [lit "Bread"; lit "Milk"].
Proof. eexists. split; reflexivity. Qed.

(** With the call succeeding, the feedback page shows every stored entry
    exactly once, the newest first, and no row has an empty name: an entry
    without one is shown as ["Anonymous"]. *)
Theorem feedback_page_lists_entries_newest_first (e : env) (st : state) :
  fault (mongo e) = None ->
  exists all,
    handle GET_feedback e st
      = (Responded (Render 200 (lit "Feedback") (feedback (map rowOfFeedback all))), st) /\
    Permutation all (feedbacks st) /\
    newestFirst FeedbackModel.createdAt all /\
    Forall (fun row => row_name row <> []) (map rowOfFeedback all) /\
    (forall f, In f all -> FeedbackModel.name f = [] ->
               row_name (rowOfFeedback f) = lit "Anonymous").
Proof.
  intros Hf. exists (sortDesc FeedbackModel.createdAt (feedbacks st)).
  simpl. unfold get_feedback, FeedbackModel.find. rewrite Hf.
  split; [reflexivity|]. split; [apply sortDesc_perm|].
  split; [apply sortDesc_sorted|]. split.
  - apply Forall_map, Forall_forall. intros f _. simpl.
    destruct (FeedbackModel.name f); simpl; discriminate.
  - intros f _ Hn. simpl. now rewrite Hn.
Qed.

Lemma feedback_page_lists_entries_newest_first_witness :
  let st := run mongoMode
              [Request (POST_feedback [text "name" "Ann"; text "message" "hello"]) envUp;
               Request (POST_feedback [text "message" "again"]) envLater] in
  map FeedbackModel.name (feedbacks st) = [lit "Ann"; lit "Anonymous"] /\
  exists all,
    handle GET_feedback envUp st
      = (Responded (Render 200 (lit "Feedback") (feedback (map rowOfFeedback all))), st) /\
    Permutation all (feedbacks st) /\
    newestFirst FeedbackModel.createdAt all /\
    Forall (fun row => row_name row <> []) (map rowOfFeedback all) /\
    (forall f, In f all -> FeedbackModel.name f = [] ->
               row_name (rowOfFeedback f) = lit "Anonymous").
Proof.
  intros st. split; [reflexivity|].
  apply (@feedback_page_lists_entries_newest_first envUp st); reflexivity.
Defined.

(** ** Requests that only read *)

(** No [GET] route changes what is stored: the flag, both arrays and both
    collections are after the request what they were before, a failing
    database included (only the console can grow). *)
Theorem get_requests_change_no_store (r : request) (e : env) (st : state) :
  verbOf r = GET -> stores (snd (handle r e st)) = stores st.
Proof.
  unfold stores. destruct r; simpl; try discriminate; intros _; try reflexivity.
  - unfold get_items. destruct (useMongoDB st) eqn:U; [destruct (Item.find _ _)|];
      simpl; now rewrite ?U.
  - unfold get_items_id, showMemoryItem.
    destruct (useMongoDB st) eqn:U;
      [destruct (Item.findById _ _ _) as [[d|]|]; simpl|];
      try destruct (List.find _ _); simpl; now rewrite ?U.
  - unfold get_items_id_edit. destruct (Item.findById _ _ _) as [[d|]|]; reflexivity.
  - unfold get_feedback. destruct (FeedbackModel.find _ _); reflexivity.
Qed.

Lemma get_requests_change_no_store_witness :
  let st := snd (handle (POST_items [text "title" "Milk"]) envDown mongoMode) in
  verbOf (GET_items_id (lit "1700000000123-k3x9qa") (lit "/items/1700000000123-k3x9qa"))
    = GET /\
  stores (snd (handle (GET_items_id (lit "1700000000123-k3x9qa")
                         (lit "/items/1700000000123-k3x9qa")) envDown st))
    = stores st /\
  console (snd (handle (GET_items_id (lit "1700000000123-k3x9qa")
                          (lit "/items/1700000000123-k3x9qa")) envDown st))
    <> console st.
Proof.
  intros st. split; [reflexivity|]. split.
  - apply (@get_requests_change_no_store
             (GET_items_id (lit "1700000000123-k3x9qa")
                (lit "/items/1700000000123-k3x9qa")) envDown st).
    reflexivity.
  - vm_compute. discriminate.
Defined.

(** ** Submitting feedback *)

(** Submit then read: a [POST /feedback] with a message and a name that are
    not blank, the call succeeding, appends one entry holding the trimmed
    name and the trimmed message and redirects to [/feedback]; the feedback
    page then shows a row with that name and that message. *)
Theorem feedback_submit_then_page (body : jsobject) (e e' : env) (st : state)
  (n m : jsstring) :
  field body "name" = JStr n -> all_ws n = false ->
  field body "message" = JStr m -> all_ws m = false ->
  fault (mongo e) = None -> fault (mongo e') = None ->
  existsb (FeedbackModel.hasId (objectId (mongo e))) (feedbacks st) = false ->
  exists f rows,
    handle (POST_feedback body) e st
      = (Responded (Redirect (lit "/feedback")), set_feedbacks (feedbacks st ++ [f]) st) /\
    FeedbackModel.name f = trim n /\
    FeedbackModel.message f = trim m /\
    fst (handle GET_feedback e' (snd (handle (POST_feedback body) e st)))
      = Responded (Render 200 (lit "Feedback") (feedback rows)) /\
    exists row, In row rows /\ row_name row = trim n /\ row_message row = trim m.
Proof.
  intros Hn Hnw Hm Hmw Hf Hf' Hid.
  pose proof (trim_not_nil _ Hnw) as Hn0. pose proof (trim_not_nil _ Hmw) as Hm0.
  assert (Hmsg : trimmedMessage (JStr m) = Some (trim m)).
  { unfold trimmedMessage, orLit. simpl.
    destruct m; [discriminate Hmw | reflexivity]. }
  assert (Hname : feedbackName (JStr n) = Some (trim n)).
  { unfold feedbackName, orLit. simpl.
    destruct n as [|a n']; [discriminate Hnw|]. simpl toString. cbv iota beta.
    destruct (trim (a :: n')); [congruence | reflexivity]. }
  destruct (@Feedback_create_succeeds (mongo e) (feedbacks st) (trim n) (trim m))
    as [f Hcreate]; auto.
  { now rewrite trim_idem. }
  pose proof (Feedback_create_Ok _ _ _ _ Hcreate) as (_ & Hfn & Hfm & _).
  rewrite !trim_idem in *.
  assert (Hpost : handle (POST_feedback body) e st
    = (Responded (Redirect (lit "/feedback")), set_feedbacks (feedbacks st ++ [f]) st)).
  { simpl. unfold post_feedback. rewrite Hm, Hmsg, Hn, Hname.
    destruct (trim m) as [|c r]; [congruence|]. now rewrite Hcreate. }
  exists f, (map rowOfFeedback
               (sortDesc FeedbackModel.createdAt (feedbacks st ++ [f]))).
  split; [exact Hpost|]. split; [exact Hfn|]. split; [exact Hfm|].
  rewrite Hpost. simpl. unfold get_feedback, FeedbackModel.find. rewrite Hf'. simpl.
  split; [reflexivity|].
  exists (rowOfFeedback f). split.
  - apply in_map. apply (Permutation_in f (Permutation_sym (sortDesc_perm _ _))).
    apply in_or_app. right. now left.
  - simpl. rewrite Hfn, Hfm. split; [|reflexivity].
    destruct (trim n); [congruence | reflexivity].
Qed.

Lemma feedback_submit_then_page_witness :
  exists f rows,
    handle (POST_feedback [text "name" " Ann "; text "message" " hello "]) envUp mongoMode
      = (Responded (Redirect (lit "/feedback")),
         set_feedbacks (feedbacks mongoMode ++ [f]) mongoMode) /\
    FeedbackModel.name f = trim (lit " Ann ") /\
    FeedbackModel.message f = trim (lit " hello ") /\
    fst (handle GET_feedback envLater
           (snd (handle (POST_feedback [text "name" " Ann "; text "message" " hello "])
                   envUp mongoMode)))
      = Responded (Render 200 (lit "Feedback") (feedback rows)) /\
    exists row, In row rows /\ row_name row = trim (lit " Ann ") /\
                row_message row = trim (lit " hello ").
Proof.
  apply (@feedback_submit_then_page
           [text "name" " Ann "; text "message" " hello "] envUp envLater mongoMode
           (lit " Ann ") (lit " hello ")); reflexivity.
Defined.

(** ** The ids of memory items *)

Lemma digits_no_dash (d : Decimal.uint) : ~ In 45%N (digits d).
Proof.
  induction d; simpl; intros H; try (destruct H as [H | H]; [discriminate H | auto]);
    auto.
Qed.

Lemma digits_inj (d d' : Decimal.uint) : digits d = digits d' -> d = d'.
Proof.
  revert d'. induction d; intros d'; destruct d'; simpl; intros H;
    try discriminate H; try reflexivity;
    injection H as H; f_equal; now apply IHd.
Qed.

Lemma split_at_dash (a b s s' : jsstring) :
  ~ In 45%N a -> ~ In 45%N b ->
  a ++ 45%N :: s = b ++ 45%N :: s' -> a = b /\ s = s'.
Proof.
  revert b. induction a as [|x a IH]; intros b Ha Hb H.
  - destruct b as [|y b]; simpl in H.
    + injection H as H. auto.
    + injection H as Hy _. exfalso. apply Hb. now left.
  - destruct b as [|y b]; simpl in H.
    + injection H as Hx _. exfalso. apply Ha. now left.
    + injection H as Hx H. subst y.
      destruct (IH b) as [-> ->]; auto.
      * intros Hin. apply Ha. now right.
      * intros Hin. apply Hb. now right.
Qed.

(** Two requests get the same memory id only when both their clock reading
    and their random suffix are the same: if either differs, so do the ids
    (the clock being past the epoch). *)
Theorem generatedId_injective (e1 e2 : env) :
  0 <= dateNow e1 -> 0 <= dateNow e2 ->
  generatedId e1 = generatedId e2 ->
  dateNow e1 = dateNow e2 /\ randomSuffix e1 = randomSuffix e2.
Proof.
  intros H1 H2. unfold generatedId, ofZ.
  destruct (dateNow e1 <? 0) eqn:E1; [apply Z.ltb_lt in E1; lia|].
  destruct (dateNow e2 <? 0) eqn:E2; [apply Z.ltb_lt in E2; lia|].
  unfold ofN. simpl app. intros H.
  apply split_at_dash in H; try apply digits_no_dash.
  destruct H as [Hd Hs]. split; [|exact Hs].
  apply digits_inj, Unsigned.to_uint_inj in Hd.
  now apply Z2N.inj in Hd.
Qed.

Lemma generatedId_injective_witness :
  generatedId envUp = generatedId envDown /\
  dateNow envUp = dateNow envDown /\ randomSuffix envUp = randomSuffix envDown.
Proof.
  split; [reflexivity|].
  apply (@generatedId_injective envUp envDown); [simpl; lia | simpl; lia | reflexivity].
Defined.

(** ** Database errors in the handlers that catch them *)

(** With the flag on and the model call throwing, each of the three
    handlers written with a [try]/[catch] (the fields of a [POST /items]
    being convertible to text) still sends a response, prints exactly one
    line, the error, and leaves both collections as they were. *)
Theorem guarded_handlers_print_and_respond (r : request) (e : env) (st : state)
  (msg : jsstring) :
  hasFallback r = true ->
  useMongoDB st = true ->
  fault (mongo e) = Some msg ->
  fst (handle r e st) <> Escaped TypeError ->
  exists resp,
    fst (handle r e st) = Responded resp /\
    console (snd (handle r e st))
      = console st ++ [Error "MongoDB error:" (DriverError msg)] /\
    items (snd (handle r e st)) = items st /\
    feedbacks (snd (handle r e st)) = feedbacks st.
Proof.
  intros Hr Hu Hf.
  destruct r; try discriminate Hr; simpl.
  - intros _. unfold get_items, Item.find. rewrite Hu, Hf. simpl. eauto.
  - unfold post_items.
    destruct (newTitle (field body "title")) as [t|] eqn:Et;
      [|intros H; exfalso; now apply H].
    destruct (contentText _) as [c|]; [|intros H; exfalso; now apply H].
    intros _. rewrite Hu. unfold Item.create.
    destruct (newTitle_trimmed _ Et) as [Hne ->]. rewrite Hf.
    destruct t; [congruence|]. simpl. eauto.
  - intros _. unfold get_items_id, Item.findById, showMemoryItem. rewrite Hu, Hf.
    simpl. destruct (List.find _ (memoryItems st)); simpl; eauto.
Qed.

Lemma guarded_handlers_print_and_respond_witness :
  exists resp,
    fst (handle (POST_items [text "title" "Milk"]) envDown mongoMode) = Responded resp /\
    console (snd (handle (POST_items [text "title" "Milk"]) envDown mongoMode))
      = console mongoMode
        ++ [Error "MongoDB error:"
              (DriverError (lit "connect ECONNREFUSED 127.0.0.1:27017"))] /\
    items (snd (handle (POST_items [text "title" "Milk"]) envDown mongoMode))
      = items mongoMode /\
    feedbacks (snd (handle (POST_items [text "title" "Milk"]) envDown mongoMode))
      = feedbacks mongoMode.
Proof.
  apply (@guarded_handlers_print_and_respond
           (POST_items [text "title" "Milk"]) envDown mongoMode
           (lit "connect ECONNREFUSED 127.0.0.1:27017"));
    try reflexivity.
  vm_compute. discriminate.
Defined.
